(** * Shopping list API

    A shallow embedding of the list and item handlers of [main.py]
    ([get_lists], [create_list], [update_list], [get_items], [update_item])
    over an explicit database state, and the properties of the open-list
    invariant and of the ownership-scoped lookups.

    Conventions.
    - The relational store is a pair of tables; a table is the list of its
      rows in insertion order.  [select(...).where(p)] is [filter p],
      [.first()] is [hd_error], an INSERT appends a row and fails on a
      primary-key clash, an UPDATE rewrites the rows with the given key.
    - A handler is a function from the database before the request to an
      [outcome] and the database after it.  A handler that raises leaves the
      database as it was (the session is closed without a commit).
    - [uuid.uuid4] is an oracle: the handler that needs fresh identifiers
      receives the sequence of values the calls return.
    - [datetime] values are integers (microseconds on the UTC time line). *)

From Stdlib Require Import List String Ascii ZArith NArith Bool Arith Lia HexString.
Import ListNotations.

Local Open Scope string_scope.
Local Open Scope list_scope.

(** ** Library types *)

Definition datetime := Z.

(** [uuid.UUID]: a 128-bit integer, and its constructor from a string,
    after CPython's [Lib/uuid.py]:
<<
    hex = hex.replace('urn:', '').replace('uuid:', '')
    hex = hex.strip('{}').replace('-', '')
    if len(hex) != 32: raise ValueError('badly formed hexadecimal UUID string')
    int = int_(hex, 16)
>>
    [None] stands for the [ValueError].  [int_16] reads plain hexadecimal
    digits only; the sign, prefix, underscore and blank forms that [int]
    also reads are taken as malformed.  No statement below depends on which
    32-character strings are accepted. *)
Module uuid.

Definition UUID := N.

(** [s.replace(old, '')] for a non-empty [old]; [skip] counts the
    characters of a match still to be dropped. *)
Fixpoint replace_from (skip : nat) (old s : string) : string :=
  match s with
  | EmptyString => EmptyString
  | String c s' =>
      match skip with
      | S k => replace_from k old s'
      | O => if prefix old s
             then replace_from (String.length old - 1) old s'
             else String c (replace_from 0 old s')
      end
  end.

Definition replace (old s : string) : string := replace_from 0 old s.

Definition is_brace (c : ascii) : bool :=
  (Ascii.eqb c "{" || Ascii.eqb c "}")%bool.

Fixpoint lstrip (s : string) : string :=
  match s with
  | String c s' => if is_brace c then lstrip s' else s
  | EmptyString => EmptyString
  end.

Fixpoint rstrip (s : string) : string :=
  match s with
  | EmptyString => EmptyString
  | String c s' =>
      match rstrip s' with
      | EmptyString => if is_brace c then EmptyString else String c EmptyString
      | r => String c r
      end
  end.

Definition strip (s : string) : string := rstrip (lstrip s).

Fixpoint int_16 (s : string) (acc : N) : option N :=
  match s with
  | EmptyString => Some acc
  | String c s' =>
      match HexString.ascii_to_digit c with
      | Some d => int_16 s' (acc * 16 + d)%N
      | None => None
      end
  end.

Definition UUID_of_str (hex : string) : option UUID :=
  let hex := replace "uuid:" (replace "urn:" hex) in
  let hex := replace "-" (strip hex) in
  if Nat.eqb (String.length hex) 32 then int_16 hex 0%N else None.

End uuid.

Definition UUID : Type := uuid.UUID.

(** ** Models (lines 34-78 of main.py) *)

Module ShoppingListUser.
Record t : Type := Build
  { id : UUID; name : string; password : string;
    created : datetime; updated : datetime }.
End ShoppingListUser.

Module SubmitItem.
Record t : Type := Build { name : string; open : bool }.
End SubmitItem.

(** The submission model.  The annotation of [open] is [bool]; the value is
    kept optional here because [update_list] tests it against [None].
    [validate] below is what decides which values reach a handler. *)
Module SubmitShoppingList.
Record t : Type := Build
  { open : option bool; items : option (list SubmitItem.t) }.
End SubmitShoppingList.

Module ShoppingList.
Record t : Type := Build
  { id : UUID; user_id : UUID; open : bool;
    created : datetime; updated : datetime }.

Definition set_open (l : t) (b : bool) : t :=
  Build (id l) (user_id l) b (created l) (updated l).
End ShoppingList.

Module Item.
Record t : Type := Build
  { id : UUID; list_id : UUID; open : bool; name : string;
    created : datetime; updated : datetime }.

Definition set_open (i : t) (b : bool) : t :=
  Build (id i) (list_id i) b (name i) (created i) (updated i).
End Item.

(** [Field(default=datetime.now(timezone.utc))] is evaluated once, when the
    class body runs: every row created by the process gets these values. *)
Record FieldDefaults : Type := Build_FieldDefaults
  { ShoppingList_created : datetime; ShoppingList_updated : datetime;
    Item_created : datetime; Item_updated : datetime }.

(** ** Request bodies

    A JSON field of a request body is absent, null or a value.  Validation
    of the body against the annotations of [SubmitShoppingList]:
    [open: bool] is required and not nullable,
    [items: Optional[list[SubmitItem]]] is required and nullable (an
    annotation without a default, as pydantic 2 reads it). *)
Inductive json_field (A : Type) : Type :=
| Absent
| Null
| Value (a : A).
Arguments Absent {A}.
Arguments Null {A}.
Arguments Value {A} a.

Record body_SubmitShoppingList : Type := Build_body
  { body_open : json_field bool;
    body_items : json_field (list SubmitItem.t) }.

Definition validate (body : body_SubmitShoppingList)
  : option SubmitShoppingList.t :=
  match body_open body, body_items body with
  | Value b, Value its => Some (SubmitShoppingList.Build (Some b) (Some its))
  | Value b, Null => Some (SubmitShoppingList.Build (Some b) None)
  | _, _ => None
  end.

(** ** Outcomes *)

Inductive status : Type :=
| HTTP_200_OK
| HTTP_204_NO_CONTENT
| HTTP_400_BAD_REQUEST
| HTTP_403_FORBIDDEN
| HTTP_404_NOT_FOUND
| HTTP_422_UNPROCESSABLE_ENTITY.

(** Exceptions that no handler of the application catches. *)
Inductive exception : Type :=
| AssertionError
| ValueError
| IntegrityError.

Inductive outcome (A : Type) : Type :=
| Response (status_code : status) (content : A)
| HTTPException (status_code : status) (detail : string)
| RequestValidationError
| Unhandled (e : exception).
Arguments Response {A} status_code content.
Arguments HTTPException {A} status_code detail.
Arguments RequestValidationError {A}.
Arguments Unhandled {A} e.

(** The status line a client sees; an unhandled exception has none of the
    application's. *)
Definition status_of {A : Type} (o : outcome A) : option status :=
  match o with
  | Response s _ => Some s
  | HTTPException s _ => Some s
  | RequestValidationError => Some HTTP_422_UNPROCESSABLE_ENTITY
  | Unhandled _ => None
  end.

Definition is_fault {A : Type} (o : outcome A) : bool :=
  match o with
  | Unhandled _ => true
  | _ => false
  end.

(** ** The database *)

Record Database : Type := Build_Database
  { lists : list ShoppingList.t; items : list Item.t }.

Definition first {A : Type} (rows : list A) : option A := hd_error rows.

(** [select(ShoppingList).where(ShoppingList.open == True,
                                ShoppingList.user_id == user)] *)
Definition is_open_list_of (user : UUID) (l : ShoppingList.t) : bool :=
  (Bool.eqb (ShoppingList.open l) true && N.eqb (ShoppingList.user_id l) user)%bool.

Definition select_open_lists (user : UUID) (session : Database)
  : list ShoppingList.t :=
  filter (is_open_list_of user) (lists session).

(** [select(ShoppingList).where(ShoppingList.id == list_id,
                                ShoppingList.user_id == user)] *)
Definition is_list_of (list_id user : UUID) (l : ShoppingList.t) : bool :=
  (N.eqb (ShoppingList.id l) list_id && N.eqb (ShoppingList.user_id l) user)%bool.

Definition select_owned_list (list_id user : UUID) (session : Database)
  : list ShoppingList.t :=
  filter (is_list_of list_id user) (lists session).

(** [select(Item).where(Item.id == item_id, Item.list_id == list_id)] *)
Definition is_item_of (item_id list_id : UUID) (i : Item.t) : bool :=
  (N.eqb (Item.id i) item_id && N.eqb (Item.list_id i) list_id)%bool.

Definition select_item (item_id list_id : UUID) (session : Database)
  : list Item.t :=
  filter (is_item_of item_id list_id) (items session).

(** The relationship [ShoppingList.items]. *)
Definition relationship_items (l : ShoppingList.t) (session : Database)
  : list Item.t :=
  filter (fun i => N.eqb (Item.list_id i) (ShoppingList.id l)) (items session).

(** INSERT of one row; [None] is the primary-key violation. *)
Definition insert_list (l : ShoppingList.t) (session : Database)
  : option Database :=
  if existsb (fun r => N.eqb (ShoppingList.id r) (ShoppingList.id l)) (lists session)
  then None
  else Some (Build_Database (lists session ++ [l]) (items session)).

Definition insert_item (i : Item.t) (session : Database) : option Database :=
  if existsb (fun r => N.eqb (Item.id r) (Item.id i)) (items session)
  then None
  else Some (Build_Database (lists session) (items session ++ [i])).

Fixpoint insert_items (new : list Item.t) (session : Database)
  : option Database :=
  match new with
  | [] => Some session
  | i :: rest =>
      match insert_item i session with
      | Some session' => insert_items rest session'
      | None => None
      end
  end.

(** [UPDATE shoppinglist SET open = ? WHERE id = ?] *)
Definition update_list_open (list_id : UUID) (b : bool) (session : Database)
  : Database :=
  Build_Database
    (map (fun r => if N.eqb (ShoppingList.id r) list_id
                   then ShoppingList.set_open r b else r) (lists session))
    (items session).

(** [UPDATE item SET open = ? WHERE id = ?] *)
Definition update_item_open (item_id : UUID) (b : bool) (session : Database)
  : Database :=
  Build_Database
    (lists session)
    (map (fun r => if N.eqb (Item.id r) item_id
                   then Item.set_open r b else r) (items session)).

(** ** Handlers *)

Definition detail_more_than_one : string := "Cannot have more than one open list".
Definition detail_empty_list : string := "Cannot create an empty shopping list".
Definition detail_list_not_found : string := "List not found".
Definition detail_item_not_found : string := "Item not found".

(** [get_lists] (lines 219-236). *)
Definition get_lists (current_user : ShoppingListUser.t) (open : option bool)
  (session : Database) : outcome (list ShoppingList.t) * Database :=
  match open with
  | Some open =>
      (Response HTTP_200_OK
         (filter (fun l => (Bool.eqb (ShoppingList.open l) open
                            && N.eqb (ShoppingList.user_id l)
                                 (ShoppingListUser.id current_user))%bool)
            (lists session)),
       session)
  | None =>
      (Response HTTP_200_OK
         (filter (fun l => N.eqb (ShoppingList.user_id l)
                             (ShoppingListUser.id current_user))
            (lists session)),
       session)
  end.

(** The rows [create_list] adds for the submitted items: the n-th item gets
    the identifier of the (n+1)-th call of [uuid4], the list having taken
    the first. *)
Fixpoint new_items (defaults : FieldDefaults) (list_id : UUID)
  (uuid4 : nat -> UUID) (n : nat) (submitted : list SubmitItem.t)
  : list Item.t :=
  match submitted with
  | [] => []
  | submit_item :: rest =>
      Item.Build (uuid4 n) list_id (SubmitItem.open submit_item)
        (SubmitItem.name submit_item)
        (Item_created defaults) (Item_updated defaults)
      :: new_items defaults list_id uuid4 (S n) rest
  end.

(** [create_list] (lines 239-273). *)
Definition create_list (defaults : FieldDefaults) (uuid4 : nat -> UUID)
  (submit_shopping_list : SubmitShoppingList.t)
  (current_user : ShoppingListUser.t) (session : Database)
  : outcome ShoppingList.t * Database :=
  match first (select_open_lists (ShoppingListUser.id current_user) session) with
  | Some _ => (HTTPException HTTP_403_FORBIDDEN detail_more_than_one, session)
  | None =>
      match SubmitShoppingList.items submit_shopping_list with
      | None => (Unhandled AssertionError, session)
      | Some submitted =>
          if Nat.eqb (List.length submitted) 0
          then (HTTPException HTTP_400_BAD_REQUEST detail_empty_list, session)
          else
            let shopping_list :=
              ShoppingList.Build (uuid4 0) (ShoppingListUser.id current_user)
                true (ShoppingList_created defaults)
                (ShoppingList_updated defaults) in
            let added :=
              match insert_list shopping_list session with
              | Some session' =>
                  insert_items
                    (new_items defaults (ShoppingList.id shopping_list)
                       uuid4 1 submitted)
                    session'
              | None => None
              end in
            match added with
            | Some session' => (Response HTTP_200_OK shopping_list, session')
            | None => (Unhandled IntegrityError, session)
            end
      end
  end.

(** The truth value of [submit_shopping_list.open] in [if ...:]. *)
Definition truthy (open : option bool) : bool :=
  match open with
  | Some true => true
  | _ => false
  end.

(** [update_list] (lines 276-315). *)
Definition update_list (submit_shopping_list : SubmitShoppingList.t)
  (list_id : UUID) (current_user : ShoppingListUser.t) (session : Database)
  : outcome ShoppingList.t * Database :=
  let conflict :=
    if truthy (SubmitShoppingList.open submit_shopping_list)
    then first (select_open_lists (ShoppingListUser.id current_user) session)
    else None in
  match conflict with
  | Some _ => (HTTPException HTTP_400_BAD_REQUEST detail_more_than_one, session)
  | None =>
      match first (select_owned_list list_id
                     (ShoppingListUser.id current_user) session) with
      | None => (HTTPException HTTP_404_NOT_FOUND detail_list_not_found, session)
      | Some shopping_list =>
          match SubmitShoppingList.open submit_shopping_list with
          | None => (Response HTTP_204_NO_CONTENT shopping_list, session)
          | Some open =>
              (Response HTTP_200_OK (ShoppingList.set_open shopping_list open),
               update_list_open (ShoppingList.id shopping_list) open session)
          end
      end
  end.

(** [get_items] (lines 318-338). *)
Definition get_items (list_id : UUID) (current_user : ShoppingListUser.t)
  (session : Database) : outcome (list Item.t) * Database :=
  match first (select_owned_list list_id
                 (ShoppingListUser.id current_user) session) with
  | None => (HTTPException HTTP_404_NOT_FOUND detail_list_not_found, session)
  | Some shopping_list =>
      (Response HTTP_200_OK (relationship_items shopping_list session), session)
  end.

(** [update_item] (lines 341-376).  The path parameters carry no annotation:
    they reach the handler as strings, and [uuid.UUID(list_id)] is evaluated
    while the first query is built, [uuid.UUID(item_id)] while the second
    is. *)
Definition update_item (list_id item_id : string) (submit_item : SubmitItem.t)
  (current_user : ShoppingListUser.t) (session : Database)
  : outcome Item.t * Database :=
  match uuid.UUID_of_str list_id with
  | None => (Unhandled ValueError, session)
  | Some lid =>
      match first (select_owned_list lid
                     (ShoppingListUser.id current_user) session) with
      | None => (HTTPException HTTP_404_NOT_FOUND detail_item_not_found, session)
      | Some shopping_list =>
          match uuid.UUID_of_str item_id with
          | None => (Unhandled ValueError, session)
          | Some iid =>
              match first (select_item iid lid session) with
              | None =>
                  (HTTPException HTTP_404_NOT_FOUND detail_item_not_found, session)
              | Some item =>
                  (Response HTTP_200_OK
                     (Item.set_open item (SubmitItem.open submit_item)),
                   update_item_open (Item.id item)
                     (SubmitItem.open submit_item) session)
              end
          end
      end
  end.

(** ** Endpoints: body validation, then the handler *)

(** [POST /lists/] *)
Definition post_lists (defaults : FieldDefaults) (uuid4 : nat -> UUID)
  (body : body_SubmitShoppingList) (current_user : ShoppingListUser.t)
  (session : Database) : outcome ShoppingList.t * Database :=
  match validate body with
  | None => (RequestValidationError, session)
  | Some submit_shopping_list =>
      create_list defaults uuid4 submit_shopping_list current_user session
  end.

(** [PUT /lists/{list_id}/] *)
Definition put_list (body : body_SubmitShoppingList) (list_id : UUID)
  (current_user : ShoppingListUser.t) (session : Database)
  : outcome ShoppingList.t * Database :=
  match validate body with
  | None => (RequestValidationError, session)
  | Some submit_shopping_list =>
      update_list submit_shopping_list list_id current_user session
  end.

(** ** State invariants and sequential executions *)

(** INV-1: a user owns at most one open list. *)
Definition INV_1 (session : Database) : Prop :=
  forall user : UUID, List.length (select_open_lists user session) <= 1.

(** The PRIMARY KEY constraints of the two tables. *)
Definition primary_keys (session : Database) : Prop :=
  NoDup (map ShoppingList.id (lists session)) /\
  NoDup (map Item.id (items session)).

(** The mutating requests, each with the values its handler receives. *)
Inductive operation : Type :=
| call_create_list (defaults : FieldDefaults) (uuid4 : nat -> UUID)
    (submit_shopping_list : SubmitShoppingList.t)
    (current_user : ShoppingListUser.t)
| call_update_list (submit_shopping_list : SubmitShoppingList.t)
    (list_id : UUID) (current_user : ShoppingListUser.t)
| call_update_item (list_id item_id : string) (submit_item : SubmitItem.t)
    (current_user : ShoppingListUser.t).

(** The committed state after one request. *)
Definition execute (op : operation) (session : Database) : Database :=
  match op with
  | call_create_list defaults uuid4 submit current_user =>
      snd (create_list defaults uuid4 submit current_user session)
  | call_update_list submit list_id current_user =>
      snd (update_list submit list_id current_user session)
  | call_update_item list_id item_id submit_item current_user =>
      snd (update_item list_id item_id submit_item current_user session)
  end.

(** The committed states of a sequential execution, the initial one first. *)
Fixpoint committed_states (ops : list operation) (session : Database)
  : list Database :=
  session ::
  match ops with
  | [] => []
  | op :: rest => committed_states rest (execute op session)
  end.

(** Two stores that differ only in one list row: it is missing from the
    first and present, at some place of the table, in the second. *)
Definition without_list (before after : list ShoppingList.t)
  (rows : list Item.t) : Database :=
  Build_Database (before ++ after) rows.

Definition with_list (before : list ShoppingList.t) (l : ShoppingList.t)
  (after : list ShoppingList.t) (rows : list Item.t) : Database :=
  Build_Database (before ++ l :: after) rows.

(** The same for one item row. *)
Definition without_item (rows : list ShoppingList.t)
  (before after : list Item.t) : Database :=
  Build_Database rows (before ++ after).

Definition with_item (rows : list ShoppingList.t) (before : list Item.t)
  (i : Item.t) (after : list Item.t) : Database :=
  Build_Database rows (before ++ i :: after).

(** The FOREIGN KEY constraint of the item table
    ([list_id: uuid.UUID = Field(foreign_key="shoppinglist.id")]). *)
Definition foreign_keys (session : Database) : Prop :=
  forall i, In i (items session) ->
            exists l, In l (lists session) /\ ShoppingList.id l = Item.list_id i.

(** ** Authentication (lines 21-31, 81-93, 115-172 and 200-216 of main.py)

    The user table is a list of rows like the other two.  The library calls
    are parameters: [pwd_context.verify] on a stored hash, [jwt.encode] and
    [jwt.decode] under the configured key and algorithm.  [jwt_decode] is
    the decoding at the time of the request, [None] standing for
    [InvalidTokenError] (a bad signature, an expired token, a subject that
    is not a string). *)

(** Durations in microseconds.  [datetime] and [timedelta] are unbounded
    here: the sums below are those of Python within the range of its
    types. *)
Definition timedelta := Z.

(** [timedelta(minutes=m)], in microseconds. *)
Definition timedelta_minutes (m : Z) : timedelta := (m * 60000000)%Z.

(** The payload of a token, as far as the application writes and reads it:
    the claims "sub" and "exp" of the dictionary. *)
Module Payload.
Record t : Type := Build { sub : option string; exp : option datetime }.

(** [to_encode.update({"exp": expire})] *)
Definition update_exp (payload : t) (expire : datetime) : t :=
  Build (sub payload) (Some expire).
End Payload.

Module Token.
Record t : Type := Build { access_token : string; token_type : string }.
End Token.

Record Library : Type := Build_Library
  { pwd_context_verify : string -> string -> bool;
    jwt_encode : Payload.t -> string;
    jwt_decode : string -> option Payload.t }.

Inductive auth_outcome (A : Type) : Type :=
| Authorized (content : A)
| HTTP_401_UNAUTHORIZED (detail : string) (headers : list (string * string)).
Arguments Authorized {A} content.
Arguments HTTP_401_UNAUTHORIZED {A} detail headers.

Definition verify_password (lib : Library) (plain_password hashed_password : string)
  : bool :=
  pwd_context_verify lib plain_password hashed_password.

(** [select(ShoppingListUser).where(ShoppingListUser.name == username)] *)
Definition select_users (username : string) (users : list ShoppingListUser.t)
  : list ShoppingListUser.t :=
  filter (fun u => String.eqb (ShoppingListUser.name u) username) users.

(** [authenticate_user] (lines 125-136). *)
Definition authenticate_user (lib : Library) (users : list ShoppingListUser.t)
  (username password : string) : option ShoppingListUser.t :=
  match first (select_users username users) with
  | None => None
  | Some user =>
      if negb (verify_password lib password (ShoppingListUser.password user))
      then None
      else Some user
  end.

(** The truth value of a [timedelta | None] in [if expires_delta:]: a zero
    duration is false. *)
Definition truthy_delta (expires_delta : option timedelta) : bool :=
  match expires_delta with
  | Some d => negb (Z.eqb d 0)
  | None => false
  end.

(** The dictionary [create_access_token] hands to [jwt.encode]. *)
Definition to_encode (now : datetime) (data : Payload.t)
  (expires_delta : option timedelta) : Payload.t :=
  let expire :=
    if truthy_delta expires_delta
    then (now + match expires_delta with Some d => d | None => 0 end)%Z
    else (now + timedelta_minutes 15)%Z in
  Payload.update_exp data expire.

(** [create_access_token] (lines 139-148); [now] is what
    [datetime.now(timezone.utc)] returns. *)
Definition create_access_token (lib : Library) (now : datetime)
  (data : Payload.t) (expires_delta : option timedelta) : string :=
  jwt_encode lib (to_encode now data expires_delta).

Definition credentials_exception {A : Type} : auth_outcome A :=
  HTTP_401_UNAUTHORIZED "Could not validate credentials"
    [("WWW-Authenticate", "Bearer")].

(** [get_current_user] (lines 151-172). *)
Definition get_current_user (lib : Library) (users : list ShoppingListUser.t)
  (token : string) : auth_outcome ShoppingListUser.t :=
  match jwt_decode lib token with
  | None => credentials_exception
  | Some payload =>
      match Payload.sub payload with
      | None => credentials_exception
      | Some username =>
          match first (select_users username users) with
          | None => credentials_exception
          | Some user => Authorized user
          end
      end
  end.

(** [get_access_token] (lines 200-216), with the configured
    [ACCESS_TOKEN_EXPIRE_MINUTES]. *)
Definition get_access_token (lib : Library) (ACCESS_TOKEN_EXPIRE_MINUTES : Z)
  (now : datetime) (users : list ShoppingListUser.t)
  (username password : string) : auth_outcome Token.t :=
  match authenticate_user lib users username password with
  | None =>
      HTTP_401_UNAUTHORIZED "Incorrect username or password"
        [("WWW-Authenticate", "Bearer")]
  | Some user =>
      let access_token_expires := timedelta_minutes ACCESS_TOKEN_EXPIRE_MINUTES in
      let access_token :=
        create_access_token lib now
          (Payload.Build (Some (ShoppingListUser.name user)) None)
          (Some access_token_expires) in
      Authorized (Token.Build access_token "bearer")
  end.

(** ** Sample data, after the fixtures of test_main.py *)

Module Fixtures.

Definition test_user : ShoppingListUser.t :=
  ShoppingListUser.Build 1%N "test" "$2b$12$hash" 612472%Z 612472%Z.

Definition other_user_id : UUID := 8%N.

(** Open, owned by the test user. *)
Definition shopping_list : ShoppingList.t :=
  ShoppingList.Build 2%N 1%N true 612473%Z 612473%Z.

(** Closed, owned by the test user. *)
Definition other_shopping_list : ShoppingList.t :=
  ShoppingList.Build 3%N 1%N false 612474%Z 612474%Z.

(** Open, owned by somebody else. *)
Definition another_shopping_list : ShoppingList.t :=
  ShoppingList.Build 4%N other_user_id true 612474%Z 612474%Z.

Definition item : Item.t :=
  Item.Build 5%N 2%N true "Milk" 612475%Z 612475%Z.

Definition other_item : Item.t :=
  Item.Build 6%N 4%N true "Someone else's Milk" 612475%Z 612475%Z.

Definition session : Database :=
  Build_Database
    [shopping_list; other_shopping_list; another_shopping_list]
    [item; other_item].

(** The same store before the test user opened anything. *)
Definition session_closed : Database :=
  Build_Database
    [ShoppingList.set_open shopping_list false; other_shopping_list;
     another_shopping_list]
    [item; other_item].

Definition defaults : FieldDefaults :=
  Build_FieldDefaults 700000%Z 700001%Z 700002%Z 700003%Z.

Definition uuid4 (n : nat) : UUID := (100 + N.of_nat n)%N.

Definition milk_and_eggs : list SubmitItem.t :=
  [SubmitItem.Build "Milk" true; SubmitItem.Build "Eggs" false].

(** The store of a fresh deployment. *)
Definition empty_session : Database := Build_Database [] [].

(** Path parameters as the client writes them. *)
Definition path_2 : string := "00000000-0000-0000-0000-000000000002".
Definition path_4 : string := "00000000-0000-0000-0000-000000000004".
Definition path_5 : string := "00000000-0000-0000-0000-000000000005".
Definition path_6 : string := "00000000-0000-0000-0000-000000000006".

End Fixtures.

(** Sample users and stand-ins for the two libraries: a stored "hash" is the
    password behind [hash:], a "token" is the subject behind [jwt:]. *)
Module AuthFixtures.

Definition verify (plain hashed : string) : bool :=
  String.eqb hashed (String.append "hash:" plain).

Definition encode (payload : Payload.t) : string :=
  match Payload.sub payload with
  | Some s => String.append "jwt:" s
  | None => "jwt"
  end.

Definition decode (token : string) : option Payload.t :=
  match token with
  | String "j" (String "w" (String "t" (String ":" s))) =>
      Some (Payload.Build (Some s) None)
  | String "j" (String "w" (String "t" EmptyString)) =>
      Some (Payload.Build None None)
  | _ => None
  end.

Definition library : Library := Build_Library verify encode decode.

Definition test_user : ShoppingListUser.t :=
  ShoppingListUser.Build 1%N "test" "hash:test" 612472%Z 612472%Z.

Definition other_user : ShoppingListUser.t :=
  ShoppingListUser.Build 8%N "other" "hash:secret" 612472%Z 612472%Z.

(** A second row under the name of the first. *)
Definition shadow_user : ShoppingListUser.t :=
  ShoppingListUser.Build 9%N "test" "hash:shadow" 612472%Z 612472%Z.

Definition users : list ShoppingListUser.t :=
  [test_user; other_user; shadow_user].

End AuthFixtures.

(** Distinct literal keys. *)
Ltac distinct_keys :=
  simpl;
  repeat (apply NoDup_cons;
          [ simpl; intros Hkey;
            repeat (destruct Hkey as [Hkey|Hkey]; [discriminate Hkey|]);
            exact Hkey
          | ]);
  apply NoDup_nil.

(** ** Facts about queries and table updates *)

Section Tables.

Context {A : Type}.

Lemma first_filter_None (p : A -> bool) (rows : list A) :
  first (filter p rows) = None -> filter p rows = [].
Proof.
  unfold first. destruct (filter p rows); [reflexivity | discriminate].
Qed.

Lemma first_filter_Some (p : A -> bool) (rows : list A) (r : A) :
  first (filter p rows) = Some r -> In r rows /\ p r = true.
Proof.
  unfold first. intros H.
  apply filter_In. destruct (filter p rows) as [|x xs].
  - discriminate.
  - simpl in H. injection H as ->. left. reflexivity.
Qed.

Lemma filter_nil_forall (p : A -> bool) (rows : list A) :
  filter p rows = [] -> forall r, In r rows -> p r = false.
Proof.
  intros H r Hin. destruct (p r) eqn:E; [|reflexivity].
  assert (Hf : In r (filter p rows)) by (apply filter_In; auto).
  rewrite H in Hf. destruct Hf.
Qed.

Lemma forall_filter_nil (p : A -> bool) (rows : list A) :
  (forall r, In r rows -> p r = false) -> filter p rows = [].
Proof.
  induction rows as [|x xs IH]; intros H; simpl; [reflexivity|].
  rewrite (H x (or_introl eq_refl)). apply IH.
  intros r Hr. apply H. right. exact Hr.
Qed.

(** A key that occurs once splits the table around its row, and an update
    by that key rewrites this row only. *)
Lemma update_by_key_split (key : A -> N) (g : A -> A) (k : N)
  (rows : list A) (r : A) :
  NoDup (map key rows) -> In r rows -> key r = k ->
  exists before after,
    rows = before ++ r :: after /\
    map (fun x => if N.eqb (key x) k then g x else x) rows
    = before ++ g r :: after.
Proof.
  intros Hnd Hin Hk.
  destruct (in_split _ _ Hin) as (before & after & ->).
  exists before, after. split; [reflexivity|].
  rewrite map_app in Hnd. simpl in Hnd.
  pose proof (NoDup_remove_2 _ _ _ Hnd) as Hout.
  rewrite map_app. simpl. rewrite Hk, N.eqb_refl.
  assert (Hid : forall part, (forall x, In x part -> key x <> k) ->
            map (fun x => if N.eqb (key x) k then g x else x) part = part).
  { intros part Hp. rewrite <- (map_id part) at 2. apply map_ext_in.
    intros x Hx. destruct (N.eqb_spec (key x) k) as [E|]; [|reflexivity].
    exfalso. exact (Hp x Hx E). }
  assert (Hb : forall x, In x before -> key x <> k).
  { intros x Hx E. apply Hout. apply in_or_app. left.
    rewrite Hk, <- E. apply in_map. exact Hx. }
  assert (Ha : forall x, In x after -> key x <> k).
  { intros x Hx E. apply Hout. apply in_or_app. right.
    rewrite Hk, <- E. apply in_map. exact Hx. }
  rewrite (Hid before Hb), (Hid after Ha). reflexivity.
Qed.

Lemma update_by_key_keys (key : A -> N) (g : A -> A) (k : N) (rows : list A) :
  (forall x, key (g x) = key x) ->
  map key (map (fun x => if N.eqb (key x) k then g x else x) rows)
  = map key rows.
Proof.
  intros Hg. rewrite map_map. apply map_ext.
  intros x. destruct (N.eqb (key x) k); [apply Hg | reflexivity].
Qed.

Lemma NoDup_snoc (key : A -> N) (rows : list A) (r : A) :
  NoDup (map key rows) ->
  existsb (fun x => N.eqb (key x) (key r)) rows = false ->
  NoDup (map key (rows ++ [r])).
Proof.
  intros Hnd Hex. rewrite map_app. simpl.
  assert (Hnot : ~ In (key r) (map key rows)).
  { intros Hin. apply in_map_iff in Hin. destruct Hin as (x & Hx & Hxin).
    assert (Ht : existsb (fun x => N.eqb (key x) (key r)) rows = true).
    { apply existsb_exists. exists x. split; [exact Hxin|].
      rewrite Hx. apply N.eqb_refl. }
    rewrite Hex in Ht. discriminate. }
  clear Hex. induction (map key rows) as [|y ys IH]; simpl.
  - constructor; [intros []|constructor].
  - inversion Hnd as [|? ? Hy Hys]; subst. constructor.
    + intros Hin. apply in_app_or in Hin. destruct Hin as [Hin|Hin].
      * exact (Hy Hin).
      * simpl in Hin. destruct Hin as [Hin|[]].
        apply Hnot. left. symmetry. exact Hin.
    + apply IH; [exact Hys|]. intros Hin. apply Hnot. right. exact Hin.
Qed.

End Tables.

(** ** Preservation of the primary keys and of INV-1 *)

Lemma insert_items_lists (new : list Item.t) (session session' : Database) :
  insert_items new session = Some session' -> lists session' = lists session.
Proof.
  revert session. induction new as [|i rest IH]; intros session H; simpl in H.
  - injection H as <-. reflexivity.
  - unfold insert_item in H.
    destruct (existsb _ (items session)); [discriminate|].
    apply IH in H. exact H.
Qed.

Lemma insert_items_keys (new : list Item.t) (session session' : Database) :
  NoDup (map Item.id (items session)) ->
  insert_items new session = Some session' ->
  NoDup (map Item.id (items session')).
Proof.
  revert session. induction new as [|i rest IH]; intros session Hnd H; simpl in H.
  - injection H as <-. exact Hnd.
  - unfold insert_item in H.
    destruct (existsb _ (items session)) eqn:E; [discriminate|].
    apply IH in H; [exact H|]. simpl. apply NoDup_snoc; assumption.
Qed.

Lemma count_open_snoc (user : UUID) (rows : list ShoppingList.t)
  (l : ShoppingList.t) :
  List.length (filter (is_open_list_of user) (rows ++ [l]))
  = List.length (filter (is_open_list_of user) rows)
    + (if is_open_list_of user l then 1 else 0).
Proof.
  rewrite filter_app, length_app. simpl.
  destruct (is_open_list_of user l); reflexivity.
Qed.

Lemma count_open_split (user : UUID) (before after : list ShoppingList.t)
  (l : ShoppingList.t) :
  List.length (filter (is_open_list_of user) (before ++ l :: after))
  = List.length (filter (is_open_list_of user) before)
    + (if is_open_list_of user l then 1 else 0)
    + List.length (filter (is_open_list_of user) after).
Proof.
  rewrite filter_app, length_app. simpl.
  destruct (is_open_list_of user l); simpl; lia.
Qed.

Lemma is_open_list_of_owner (user : UUID) (l : ShoppingList.t) :
  is_open_list_of user l = true -> ShoppingList.user_id l = user.
Proof.
  unfold is_open_list_of. intros H. apply andb_prop in H.
  apply N.eqb_eq. exact (proj2 H).
Qed.

Lemma is_open_list_of_closed (user : UUID) (l : ShoppingList.t) :
  is_open_list_of user (ShoppingList.set_open l false) = false.
Proof. reflexivity. Qed.

Lemma is_list_of_true (list_id user : UUID) (l : ShoppingList.t) :
  is_list_of list_id user l = true ->
  ShoppingList.id l = list_id /\ ShoppingList.user_id l = user.
Proof.
  unfold is_list_of. intros H. apply andb_prop in H.
  split; apply N.eqb_eq; tauto.
Qed.

(** The UPDATE of [update_list] keeps INV-1, provided that opening happens
    only for a user without an open list. *)
Lemma update_list_open_INV_1 (session : Database) (r : ShoppingList.t)
  (b : bool) :
  primary_keys session -> INV_1 session ->
  In r (lists session) ->
  (b = true -> select_open_lists (ShoppingList.user_id r) session = []) ->
  INV_1 (update_list_open (ShoppingList.id r) b session).
Proof.
  intros [Hpk _] Hinv Hin Hnone user.
  destruct (update_by_key_split ShoppingList.id
              (fun x => ShoppingList.set_open x b) (ShoppingList.id r)
              (lists session) r Hpk Hin eq_refl)
    as (before & after & Hrows & Hupd).
  unfold update_list_open, select_open_lists. simpl.
  rewrite Hupd, count_open_split.
  specialize (Hinv user). unfold select_open_lists in Hinv.
  rewrite Hrows, count_open_split in Hinv.
  destruct b.
  - destruct (is_open_list_of user (ShoppingList.set_open r true)) eqn:E.
    + apply is_open_list_of_owner in E. simpl in E. subst user.
      specialize (Hnone eq_refl). unfold select_open_lists in Hnone.
      rewrite Hrows, filter_app in Hnone.
      apply app_eq_nil in Hnone. destruct Hnone as [Hb Ha].
      rewrite Hb. simpl in Ha.
      destruct (is_open_list_of (ShoppingList.user_id r) r); [discriminate|].
      rewrite Ha. simpl. lia.
    + destruct (is_open_list_of user r); lia.
  - rewrite is_open_list_of_closed.
    destruct (is_open_list_of user r); lia.
Qed.

Lemma update_list_open_keys (list_id : UUID) (b : bool) (session : Database) :
  primary_keys session -> primary_keys (update_list_open list_id b session).
Proof.
  intros [Hl Hi]. split; simpl; [|exact Hi].
  rewrite update_by_key_keys; [exact Hl | reflexivity].
Qed.

Lemma update_item_open_keys (item_id : UUID) (b : bool) (session : Database) :
  primary_keys session -> primary_keys (update_item_open item_id b session).
Proof.
  intros [Hl Hi]. split; simpl; [exact Hl|].
  rewrite update_by_key_keys; [exact Hi | reflexivity].
Qed.

Lemma create_list_preserves defaults uuid4 submit current_user session :
  primary_keys session -> INV_1 session ->
  let session' := snd (create_list defaults uuid4 submit current_user session) in
  primary_keys session' /\ INV_1 session'.
Proof.
  intros Hpk Hinv. unfold create_list.
  destruct (first (select_open_lists _ session)) eqn:Hopen; [split; assumption|].
  destruct (SubmitShoppingList.items submit) as [submitted|]; [|split; assumption].
  destruct (Nat.eqb (List.length submitted) 0); [split; assumption|].
  destruct (insert_list _ session) as [s1|] eqn:H1; [|split; assumption].
  destruct (insert_items _ s1) as [s2|] eqn:H2; [|split; assumption].
  simpl. unfold insert_list in H1.
  destruct (existsb _ (lists session)) eqn:Hfresh; [discriminate|].
  injection H1 as <-. destruct Hpk as [Hl Hi].
  pose proof (insert_items_lists _ _ _ H2) as Hlists. simpl in Hlists.
  split.
  - split.
    + rewrite Hlists. apply NoDup_snoc; assumption.
    + eapply insert_items_keys; [|exact H2]. exact Hi.
  - intros user. unfold select_open_lists. rewrite Hlists, count_open_snoc.
    match goal with
    | |- context [is_open_list_of user ?l] =>
        destruct (is_open_list_of user l) eqn:E
    end.
    + apply is_open_list_of_owner in E. simpl in E. subst user.
      apply first_filter_None in Hopen. unfold select_open_lists in Hopen.
      rewrite Hopen. simpl. lia.
    + specialize (Hinv user). unfold select_open_lists in Hinv. lia.
Qed.

Lemma update_list_preserves submit list_id current_user session :
  primary_keys session -> INV_1 session ->
  let session' := snd (update_list submit list_id current_user session) in
  primary_keys session' /\ INV_1 session'.
Proof.
  intros Hpk Hinv. unfold update_list.
  destruct (if truthy (SubmitShoppingList.open submit)
            then first (select_open_lists (ShoppingListUser.id current_user)
                          session)
            else None) eqn:Hconflict; [split; assumption|].
  destruct (first (select_owned_list _ _ session)) as [r|] eqn:Hown;
    [|split; assumption].
  destruct (SubmitShoppingList.open submit) as [b|] eqn:Hb; [|split; assumption].
  simpl. split; [apply update_list_open_keys; exact Hpk|].
  apply first_filter_Some in Hown. destruct Hown as [Hin Howner].
  apply is_list_of_true in Howner. destruct Howner as [_ Howner].
  apply update_list_open_INV_1; try assumption.
  intros ->. simpl in Hconflict. rewrite Howner.
  apply first_filter_None. exact Hconflict.
Qed.

Lemma update_item_preserves list_id item_id submit_item current_user session :
  primary_keys session -> INV_1 session ->
  let session' :=
    snd (update_item list_id item_id submit_item current_user session) in
  primary_keys session' /\ INV_1 session'.
Proof.
  intros Hpk Hinv. unfold update_item.
  destruct (uuid.UUID_of_str list_id); [|split; assumption].
  destruct (first (select_owned_list _ _ session)); [|split; assumption].
  destruct (uuid.UUID_of_str item_id); [|split; assumption].
  destruct (first (select_item _ _ session)); [|split; assumption].
  simpl. split; [apply update_item_open_keys; exact Hpk | exact Hinv].
Qed.

Lemma execute_preserves (op : operation) (session : Database) :
  primary_keys session -> INV_1 session ->
  primary_keys (execute op session) /\ INV_1 (execute op session).
Proof.
  intros Hpk Hinv. destruct op; simpl.
  - apply create_list_preserves; assumption.
  - apply update_list_preserves; assumption.
  - apply update_item_preserves; assumption.
Qed.

(** C1 (INV-1).  Starting from a database that satisfies its primary-key
    constraints and in which every user owns at most one open list, every
    committed state of every sequential execution of [create_list],
    [update_list] and [update_item] requests, by any users and in any order,
    has at most one open list per user. *)
Theorem C1_at_most_one_open_list :
  forall (session : Database) (ops : list operation),
    primary_keys session -> INV_1 session ->
    Forall INV_1 (committed_states ops session).
Proof.
  intros session ops. revert session.
  induction ops as [|op rest IH]; intros session Hpk Hinv; simpl.
  - constructor; [exact Hinv | constructor].
  - constructor; [exact Hinv|].
    destruct (execute_preserves op session Hpk Hinv) as [Hpk' Hinv'].
    apply IH; assumption.
Qed.

Lemma fixtures_primary_keys : primary_keys Fixtures.session.
Proof.
  split; distinct_keys.
Defined.

Lemma fixtures_INV_1 : INV_1 Fixtures.session.
Proof.
  intros user.
  destruct (N.eq_dec user 1) as [->|H1]; [vm_compute; lia|].
  destruct (N.eq_dec user 8) as [->|H8]; [vm_compute; lia|].
  unfold select_open_lists. rewrite forall_filter_nil; [simpl; lia|].
  intros r Hr. unfold is_open_list_of.
  apply andb_false_iff. right. apply N.eqb_neq.
  simpl in Hr. destruct Hr as [<-|[<-|[<-|[]]]]; simpl;
    unfold Fixtures.other_user_id; congruence.
Defined.

(** An execution on the sample store: the test user tries to create a list
    while one is open, closes it, opens the other one, ticks an item off and
    creates a list again. *)
Lemma C1_at_most_one_open_list_witness :
  primary_keys Fixtures.session /\ INV_1 Fixtures.session /\
  Forall INV_1
    (committed_states
       [call_create_list Fixtures.defaults Fixtures.uuid4
          (SubmitShoppingList.Build (Some true) (Some Fixtures.milk_and_eggs))
          Fixtures.test_user;
        call_update_list (SubmitShoppingList.Build (Some false) None) 2%N
          Fixtures.test_user;
        call_update_list (SubmitShoppingList.Build (Some true) None) 3%N
          Fixtures.test_user;
        call_update_item Fixtures.path_2 Fixtures.path_5
          (SubmitItem.Build "Milk" false) Fixtures.test_user;
        call_create_list Fixtures.defaults Fixtures.uuid4
          (SubmitShoppingList.Build (Some true) (Some Fixtures.milk_and_eggs))
          Fixtures.test_user]
       Fixtures.session).
Proof.
  split; [exact fixtures_primary_keys|].
  split; [exact fixtures_INV_1|].
  apply C1_at_most_one_open_list.
  - exact fixtures_primary_keys.
  - exact fixtures_INV_1.
Defined.

(** ** [update_list]: the open-list check and the ownership lookup *)

Lemma first_filter_exists {A : Type} (p : A -> bool) (rows : list A) (r : A) :
  In r rows -> p r = true -> exists x, first (filter p rows) = Some x.
Proof.
  intros Hin Hp.
  assert (Hf : In r (filter p rows)) by (apply filter_In; auto).
  destruct (filter p rows) as [|x xs]; [destruct Hf|].
  exists x. reflexivity.
Qed.

(** C2, as the code has it.  The open-list check of [update_list] does not
    leave the target out: when the caller asks for [open = true] on a list of
    theirs that is already open, the request is refused with 400 "Cannot have
    more than one open list" and the database is left as it was. *)
Theorem C2_reopening_open_list_is_refused :
  forall (session : Database) (l : ShoppingList.t)
         (submitted : option (list SubmitItem.t))
         (current_user : ShoppingListUser.t),
    In l (lists session) ->
    ShoppingList.user_id l = ShoppingListUser.id current_user ->
    ShoppingList.open l = true ->
    update_list (SubmitShoppingList.Build (Some true) submitted)
      (ShoppingList.id l) current_user session
    = (HTTPException HTTP_400_BAD_REQUEST detail_more_than_one, session).
Proof.
  intros session l submitted current_user Hin Hown Hopen.
  unfold update_list. simpl.
  destruct (first_filter_exists
              (is_open_list_of (ShoppingListUser.id current_user))
              (lists session) l Hin) as [x Hx].
  - unfold is_open_list_of. rewrite Hopen, Hown, N.eqb_refl. reflexivity.
  - unfold select_open_lists. rewrite Hx. reflexivity.
Qed.

Lemma C2_reopening_open_list_is_refused_witness :
  In Fixtures.shopping_list (lists Fixtures.session) /\
  update_list (SubmitShoppingList.Build (Some true) None) 2%N
    Fixtures.test_user Fixtures.session
  = (HTTPException HTTP_400_BAD_REQUEST detail_more_than_one, Fixtures.session).
Proof.
  split.
  - simpl. left. reflexivity.
  - apply (C2_reopening_open_list_is_refused Fixtures.session
             Fixtures.shopping_list None Fixtures.test_user).
    + simpl. left. reflexivity.
    + reflexivity.
    + reflexivity.
Defined.

(** C2 as stated fails on the sample store: the test user owns the open list
    2 and no other open list, asks for [open = true] on list 2, and gets the
    400 conflict, not a successful response. *)
Lemma C2_counterexample :
  select_open_lists 1%N Fixtures.session = [Fixtures.shopping_list] /\
  ShoppingList.id Fixtures.shopping_list = 2%N /\
  fst (update_list (SubmitShoppingList.Build (Some true) None) 2%N
         Fixtures.test_user Fixtures.session)
  = HTTPException HTTP_400_BAD_REQUEST detail_more_than_one /\
  ~ (exists code l,
        fst (update_list (SubmitShoppingList.Build (Some true) None) 2%N
               Fixtures.test_user Fixtures.session)
        = Response code l).
Proof.
  repeat split.
  intros (code & l & H). discriminate H.
Qed.

(** An unowned [list_id]: the open-list check decides between 400 and 404. *)
Lemma update_list_unowned :
  forall (submit : SubmitShoppingList.t) (list_id : UUID)
         (current_user : ShoppingListUser.t) (session : Database),
    select_owned_list list_id (ShoppingListUser.id current_user) session = [] ->
    update_list submit list_id current_user session
    = (if (truthy (SubmitShoppingList.open submit)
           && existsb (is_open_list_of (ShoppingListUser.id current_user))
                (lists session))%bool
       then HTTPException HTTP_400_BAD_REQUEST detail_more_than_one
       else HTTPException HTTP_404_NOT_FOUND detail_list_not_found,
       session).
Proof.
  intros submit list_id current_user session Hnone.
  unfold update_list. rewrite Hnone. simpl.
  destruct (truthy (SubmitShoppingList.open submit)); simpl; [|reflexivity].
  destruct (existsb _ (lists session)) eqn:E.
  - apply existsb_exists in E. destruct E as (x & Hin & Hp).
    destruct (first_filter_exists _ _ _ Hin Hp) as [y Hy].
    unfold select_open_lists. rewrite Hy. reflexivity.
  - assert (Hf : select_open_lists (ShoppingListUser.id current_user) session
                 = []).
    { apply forall_filter_nil. intros r Hr.
      destruct (is_open_list_of _ r) eqn:Er; [|reflexivity].
      assert (Ht : existsb (is_open_list_of (ShoppingListUser.id current_user))
                     (lists session) = true)
        by (apply existsb_exists; exists r; auto).
      rewrite E in Ht. discriminate. }
    rewrite Hf. reflexivity.
Qed.

(** C4, as the code has it.  For a [list_id] that resolves to no list of the
    caller, [update_list] leaves the database as it was and answers 404
    "List not found", except when the request asks for [open = true] and the
    caller has an open list: the open-list check runs first and answers
    400. *)
Theorem C4_unowned_list_not_found_after_open_check :
  forall (submit : SubmitShoppingList.t) (list_id : UUID)
         (current_user : ShoppingListUser.t) (session : Database),
    select_owned_list list_id (ShoppingListUser.id current_user) session = [] ->
    update_list submit list_id current_user session
    = (if (truthy (SubmitShoppingList.open submit)
           && existsb (is_open_list_of (ShoppingListUser.id current_user))
                (lists session))%bool
       then HTTPException HTTP_400_BAD_REQUEST detail_more_than_one
       else HTTPException HTTP_404_NOT_FOUND detail_list_not_found,
       session).
Proof. exact update_list_unowned. Qed.

Lemma C4_unowned_list_not_found_after_open_check_witness :
  update_list (SubmitShoppingList.Build (Some false) None) 4%N
    Fixtures.test_user Fixtures.session
  = (HTTPException HTTP_404_NOT_FOUND detail_list_not_found, Fixtures.session).
Proof.
  apply (C4_unowned_list_not_found_after_open_check
           (SubmitShoppingList.Build (Some false) None) 4%N
           Fixtures.test_user Fixtures.session).
  reflexivity.
Defined.

(** C4 as stated fails on the sample store: neither the missing list 99 nor
    the list 4 of another user resolves to a list of the test user, and with
    [open = true] both requests are answered 400, not 404. *)
Lemma C4_counterexample :
  select_owned_list 99%N 1%N Fixtures.session = [] /\
  select_owned_list 4%N 1%N Fixtures.session = [] /\
  fst (update_list (SubmitShoppingList.Build (Some true) None) 99%N
         Fixtures.test_user Fixtures.session)
  = HTTPException HTTP_400_BAD_REQUEST detail_more_than_one /\
  fst (update_list (SubmitShoppingList.Build (Some true) None) 4%N
         Fixtures.test_user Fixtures.session)
  = HTTPException HTTP_400_BAD_REQUEST detail_more_than_one.
Proof. repeat split. Qed.

(** ** [create_list] *)

(** C5, as the code has it.  With an empty item sequence [create_list]
    fails for every submitted [open] value and leaves the database as it
    was; the open-list check comes first, so the failure is 403 "Cannot have
    more than one open list" when the caller has an open list, and 400
    "Cannot create an empty shopping list" otherwise. *)
Theorem C5_empty_items_rejected_after_open_check :
  forall (defaults : FieldDefaults) (uuid4 : nat -> UUID)
         (open : option bool) (current_user : ShoppingListUser.t)
         (session : Database),
    create_list defaults uuid4 (SubmitShoppingList.Build open (Some []))
      current_user session
    = (if existsb (is_open_list_of (ShoppingListUser.id current_user))
            (lists session)
       then HTTPException HTTP_403_FORBIDDEN detail_more_than_one
       else HTTPException HTTP_400_BAD_REQUEST detail_empty_list,
       session).
Proof.
  intros defaults uuid4 open current_user session.
  unfold create_list, select_open_lists. simpl.
  destruct (existsb _ (lists session)) eqn:E.
  - apply existsb_exists in E. destruct E as (x & Hin & Hp).
    destruct (first_filter_exists _ _ _ Hin Hp) as [y Hy].
    rewrite Hy. reflexivity.
  - rewrite forall_filter_nil; [reflexivity|].
    intros r Hr. destruct (is_open_list_of _ r) eqn:Er; [|reflexivity].
    assert (Ht : existsb (is_open_list_of (ShoppingListUser.id current_user))
                   (lists session) = true)
      by (apply existsb_exists; exists r; auto).
    rewrite E in Ht. discriminate.
Qed.

(** C5 as stated fails on the sample store: the test user has an open list,
    submits an empty item sequence, and gets 403, not 400. *)
Lemma C5_counterexample :
  select_open_lists 1%N Fixtures.session = [Fixtures.shopping_list] /\
  fst (create_list Fixtures.defaults Fixtures.uuid4
         (SubmitShoppingList.Build (Some true) (Some []))
         Fixtures.test_user Fixtures.session)
  = HTTPException HTTP_403_FORBIDDEN detail_more_than_one /\
  fst (create_list Fixtures.defaults Fixtures.uuid4
         (SubmitShoppingList.Build (Some false) (Some []))
         Fixtures.test_user Fixtures.session)
  = HTTPException HTTP_403_FORBIDDEN detail_more_than_one.
Proof. repeat split. Qed.

Lemma insert_items_items (new : list Item.t) (session session' : Database) :
  insert_items new session = Some session' ->
  items session' = items session ++ new.
Proof.
  revert session. induction new as [|i rest IH]; intros session H; simpl in H.
  - injection H as <-. rewrite app_nil_r. reflexivity.
  - unfold insert_item in H.
    destruct (existsb _ (items session)); [discriminate|].
    apply IH in H. rewrite H. simpl. rewrite <- app_assoc. reflexivity.
Qed.

Lemma new_items_open defaults list_id uuid4 n submitted :
  map Item.open (new_items defaults list_id uuid4 n submitted)
  = map SubmitItem.open submitted.
Proof.
  revert n. induction submitted as [|s rest IH]; intros n; simpl.
  - reflexivity.
  - rewrite IH. reflexivity.
Qed.

Lemma new_items_name defaults list_id uuid4 n submitted :
  map Item.name (new_items defaults list_id uuid4 n submitted)
  = map SubmitItem.name submitted.
Proof.
  revert n. induction submitted as [|s rest IH]; intros n; simpl.
  - reflexivity.
  - rewrite IH. reflexivity.
Qed.

Lemma new_items_list_id defaults list_id uuid4 n submitted :
  Forall (fun i => Item.list_id i = list_id)
    (new_items defaults list_id uuid4 n submitted).
Proof.
  revert n. induction submitted as [|s rest IH]; intros n; simpl.
  - constructor.
  - constructor; [reflexivity | apply IH].
Qed.

(** [create_list] never reads the submitted list-level [open]. *)
Lemma create_list_ignores_open defaults uuid4 open open' submitted
  current_user session :
  create_list defaults uuid4 (SubmitShoppingList.Build open submitted)
    current_user session
  = create_list defaults uuid4 (SubmitShoppingList.Build open' submitted)
      current_user session.
Proof. reflexivity. Qed.

(** C10.  Whenever [create_list] succeeds, the answer is 200 and the row it
    appended to the list table, which is the list it returns, belongs to the
    caller and has [open = true], and the same result is obtained for any
    other submitted list-level [open] value; the rows appended to the item
    table belong to the new list and carry, in the submitted order, the
    [open] values and the names of the submitted items. *)
Theorem C10_created_list_is_open :
  forall (defaults : FieldDefaults) (uuid4 : nat -> UUID)
         (submit : SubmitShoppingList.t) (current_user : ShoppingListUser.t)
         (session session' : Database) (code : status) (l : ShoppingList.t),
    create_list defaults uuid4 submit current_user session
    = (Response code l, session') ->
    code = HTTP_200_OK /\
    ShoppingList.open l = true /\
    ShoppingList.user_id l = ShoppingListUser.id current_user /\
    lists session' = lists session ++ [l] /\
    (forall open' : option bool,
        create_list defaults uuid4
          (SubmitShoppingList.Build open' (SubmitShoppingList.items submit))
          current_user session
        = (Response code l, session')) /\
    exists (submitted : list SubmitItem.t) (added : list Item.t),
      SubmitShoppingList.items submit = Some submitted /\
      items session' = items session ++ added /\
      Forall (fun i => Item.list_id i = ShoppingList.id l) added /\
      map Item.open added = map SubmitItem.open submitted /\
      map Item.name added = map SubmitItem.name submitted.
Proof.
  intros defaults uuid4 submit current_user session session' code l H.
  assert (Hany : forall open',
             create_list defaults uuid4
               (SubmitShoppingList.Build open' (SubmitShoppingList.items submit))
               current_user session
             = (Response code l, session')).
  { intros open'. rewrite <- H. destruct submit as [o its]. reflexivity. }
  unfold create_list in H.
  destruct (first (select_open_lists _ session)); [discriminate|].
  destruct (SubmitShoppingList.items submit) as [submitted|] eqn:Hits;
    [|discriminate].
  destruct (Nat.eqb (List.length submitted) 0); [discriminate|].
  destruct (insert_list _ session) as [s1|] eqn:H1; [|discriminate].
  destruct (insert_items _ s1) as [s2|] eqn:H2; [|discriminate].
  injection H as <- <- <-.
  unfold insert_list in H1.
  destruct (existsb _ (lists session)); [discriminate|].
  injection H1 as <-.
  pose proof (insert_items_lists _ _ _ H2) as Hl.
  pose proof (insert_items_items _ _ _ H2) as Hi.
  simpl in Hl, Hi.
  split; [reflexivity|]. split; [reflexivity|]. split; [reflexivity|].
  split; [exact Hl|]. split; [exact Hany|].
  eexists submitted, _. split; [reflexivity|]. split; [exact Hi|].
  split; [apply new_items_list_id|].
  split; [apply new_items_open | apply new_items_name].
Qed.

(** The test user, with no open list, submits [open = false] and two items,
    the second already ticked off. *)
Lemma C10_created_list_is_open_witness :
  let l := ShoppingList.Build 100%N 1%N true 700000%Z 700001%Z in
  create_list Fixtures.defaults Fixtures.uuid4
    (SubmitShoppingList.Build (Some false) (Some Fixtures.milk_and_eggs))
    Fixtures.test_user Fixtures.session_closed
  = (Response HTTP_200_OK l,
     Build_Database
       (lists Fixtures.session_closed ++ [l])
       (items Fixtures.session_closed ++
        [Item.Build 101%N 100%N true "Milk" 700002%Z 700003%Z;
         Item.Build 102%N 100%N false "Eggs" 700002%Z 700003%Z])) /\
  ShoppingList.open l = true.
Proof.
  split; [reflexivity|].
  exact (proj1 (proj2 (C10_created_list_is_open Fixtures.defaults Fixtures.uuid4
                  (SubmitShoppingList.Build (Some false)
                     (Some Fixtures.milk_and_eggs))
                  Fixtures.test_user Fixtures.session_closed _ _ _
                  eq_refl))).
Defined.

(** ** Requests without [open], malformed identifiers, null [items] *)

(** The handler itself, were it handed a submission whose [open] is [None],
    would answer 204 with the stored list and change nothing. *)
Lemma update_list_None_no_content submitted list_id current_user session l :
  first (select_owned_list list_id (ShoppingListUser.id current_user) session)
  = Some l ->
  update_list (SubmitShoppingList.Build None submitted) list_id current_user
    session
  = (Response HTTP_204_NO_CONTENT l, session).
Proof.
  intros H. unfold update_list. simpl. rewrite H. reflexivity.
Qed.

Lemma validate_open (body : body_SubmitShoppingList)
  (submit : SubmitShoppingList.t) :
  validate body = Some submit ->
  exists b, body_open body = Value b /\ SubmitShoppingList.open submit = Some b.
Proof.
  unfold validate. intros H.
  destruct (body_open body) as [| |b]; try discriminate.
  exists b. split; [reflexivity|].
  destruct (body_items body); try discriminate; injection H as <-; reflexivity.
Qed.

(** C3, evaluated.  [SubmitShoppingList.open] is annotated [bool]: a body
    whose [open] is null or absent does not pass validation, the request is
    answered 422 with the database as it was, and the 204 branch of
    [update_list] is reached by no request body. *)
Theorem C3_put_list_without_open_is_rejected :
  forall (submitted : json_field (list SubmitItem.t)) (list_id : UUID)
         (current_user : ShoppingListUser.t) (session : Database),
    put_list (Build_body Null submitted) list_id current_user session
    = (RequestValidationError, session) /\
    put_list (Build_body Absent submitted) list_id current_user session
    = (RequestValidationError, session) /\
    forall body : body_SubmitShoppingList,
      status_of (fst (put_list body list_id current_user session))
      <> Some HTTP_204_NO_CONTENT.
Proof.
  intros submitted list_id current_user session.
  split; [reflexivity|]. split; [reflexivity|].
  intros body. unfold put_list.
  destruct (validate body) as [submit|] eqn:Hv; [|simpl; discriminate].
  destruct (validate_open _ _ Hv) as (b & _ & Hb).
  unfold update_list. rewrite Hb.
  destruct (if truthy (Some b) then _ else _); [simpl; discriminate|].
  destruct (first (select_owned_list _ _ session)); simpl; discriminate.
Qed.

Lemma update_item_malformed_list_id list_id item_id submit_item current_user
  session :
  uuid.UUID_of_str list_id = None ->
  update_item list_id item_id submit_item current_user session
  = (Unhandled ValueError, session).
Proof.
  intros H. unfold update_item. rewrite H. reflexivity.
Qed.

Lemma create_list_null_items defaults uuid4 open current_user session :
  select_open_lists (ShoppingListUser.id current_user) session = [] ->
  create_list defaults uuid4 (SubmitShoppingList.Build open None)
    current_user session
  = (Unhandled AssertionError, session).
Proof.
  intros H. unfold create_list. rewrite H. reflexivity.
Qed.

(** C9, evaluated.  [update_item] hands its path parameters to [uuid.UUID]
    as they come: a malformed [list_id] raises [ValueError] for every caller
    and store, and so does a malformed [item_id] once the list resolved;
    [create_list] asserts that [items] is not [None], and a body with
    [items: null] passes validation and fails the assertion.  None of the
    three is caught. *)
Theorem C9_malformed_input_is_unhandled :
  (forall (item_id : string) (submit_item : SubmitItem.t)
          (current_user : ShoppingListUser.t) (session : Database),
      update_item "not-a-uuid" item_id submit_item current_user session
      = (Unhandled ValueError, session)) /\
  update_item Fixtures.path_2 "not-a-uuid" (SubmitItem.Build "Milk" false)
    Fixtures.test_user Fixtures.session
  = (Unhandled ValueError, Fixtures.session) /\
  post_lists Fixtures.defaults Fixtures.uuid4 (Build_body (Value true) Null)
    Fixtures.test_user Fixtures.session_closed
  = (Unhandled AssertionError, Fixtures.session_closed).
Proof.
  split; [|split].
  - intros. apply update_item_malformed_list_id. reflexivity.
  - reflexivity.
  - reflexivity.
Qed.

(** ** What the updates write *)

(** The two ways a call of [update_item] ends. *)
Lemma update_item_inv list_id item_id submit_item current_user session :
  let result := update_item list_id item_id submit_item current_user session in
  (snd result = session /\ forall code item, fst result <> Response code item)
  \/
  (exists stored,
      In stored (items session) /\
      result
      = (Response HTTP_200_OK
           (Item.set_open stored (SubmitItem.open submit_item)),
         update_item_open (Item.id stored) (SubmitItem.open submit_item)
           session)).
Proof.
  unfold update_item.
  destruct (uuid.UUID_of_str list_id) as [lid|];
    [|left; split; [reflexivity | discriminate]].
  destruct (first (select_owned_list _ _ session));
    [|left; split; [reflexivity | discriminate]].
  destruct (uuid.UUID_of_str item_id) as [iid|];
    [|left; split; [reflexivity | discriminate]].
  destruct (first (select_item iid lid session)) as [stored|] eqn:E;
    [|left; split; [reflexivity | discriminate]].
  right. exists stored. split; [|reflexivity].
  apply first_filter_Some in E. exact (proj1 E).
Qed.

(** The three ways a call of [update_list] ends. *)
Lemma update_list_inv submit list_id current_user session :
  let result := update_list submit list_id current_user session in
  (snd result = session /\ forall code l, fst result <> Response code l)
  \/
  (exists stored,
      In stored (lists session) /\ ShoppingList.id stored = list_id /\
      SubmitShoppingList.open submit = None /\
      result = (Response HTTP_204_NO_CONTENT stored, session))
  \/
  (exists stored b,
      In stored (lists session) /\ ShoppingList.id stored = list_id /\
      SubmitShoppingList.open submit = Some b /\
      result
      = (Response HTTP_200_OK (ShoppingList.set_open stored b),
         update_list_open (ShoppingList.id stored) b session)).
Proof.
  unfold update_list.
  destruct (if truthy (SubmitShoppingList.open submit) then _ else _);
    [left; split; [reflexivity | discriminate]|].
  destruct (first (select_owned_list _ _ session)) as [stored|] eqn:E;
    [|left; split; [reflexivity | discriminate]].
  apply first_filter_Some in E. destruct E as [Hin Hp].
  apply is_list_of_true in Hp. destruct Hp as [Hid _].
  right. destruct (SubmitShoppingList.open submit) as [b|].
  - right. exists stored, b. repeat split; assumption.
  - left. exists stored. repeat split; assumption.
Qed.

Lemma map_update_by_key {A B : Type} (key : A -> N) (g : A -> A)
  (h : A -> B) (k : N) (rows : list A) :
  (forall x, h (g x) = h x) ->
  map h (map (fun x => if N.eqb (key x) k then g x else x) rows) = map h rows.
Proof.
  intros Hg. rewrite map_map. apply map_ext.
  intros x. destruct (N.eqb (key x) k); [apply Hg | reflexivity].
Qed.

Lemma In_update_by_key {A : Type} (key : A -> N) (g : A -> A) (rows : list A)
  (r : A) :
  In r rows ->
  In (g r) (map (fun x => if N.eqb (key x) (key r) then g x else x) rows).
Proof.
  intros Hin.
  apply in_map_iff. exists r. rewrite N.eqb_refl. split; [reflexivity | exact Hin].
Qed.

(** C7.  For every call of [update_item], whatever the submitted name: the
    list table is untouched; every row of the item table keeps all its
    columns but [open], its name among them; the call with any other
    submitted name gives the same outcome and the same database; and on
    success the returned item is a stored item of before with [open]
    replaced by the submitted value, under its stored name, and it is a row
    of the table after. *)
Theorem C7_update_item_persists_open_only :
  forall (list_id item_id : string) (submit_item : SubmitItem.t)
         (current_user : ShoppingListUser.t) (session : Database),
    let result := update_item list_id item_id submit_item current_user session in
    lists (snd result) = lists session /\
    map Item.name (items (snd result)) = map Item.name (items session) /\
    map (fun i => Item.set_open i false) (items (snd result))
    = map (fun i => Item.set_open i false) (items session) /\
    (forall name' : string,
        update_item list_id item_id
          (SubmitItem.Build name' (SubmitItem.open submit_item))
          current_user session
        = result) /\
    (forall code item,
        fst result = Response code item ->
        exists stored,
          In stored (items session) /\
          item = Item.set_open stored (SubmitItem.open submit_item) /\
          Item.name item = Item.name stored /\
          Item.open item = SubmitItem.open submit_item /\
          In item (items (snd result))).
Proof.
  intros list_id item_id submit_item current_user session result.
  assert (Hname : forall name' : string,
             update_item list_id item_id
               (SubmitItem.Build name' (SubmitItem.open submit_item))
               current_user session
             = result) by reflexivity.
  pose proof (update_item_inv list_id item_id submit_item current_user session)
    as Hinv.
  subst result. cbv zeta in Hinv.
  destruct Hinv as [[Hs Hno]|(stored & Hin & Hr)].
  - rewrite Hs. repeat split; try reflexivity; try exact Hname.
    intros code item H. exfalso. exact (Hno code item H).
  - rewrite Hr. simpl. split; [reflexivity|].
    split; [apply map_update_by_key; reflexivity|].
    split; [apply map_update_by_key; reflexivity|].
    split; [rewrite <- Hr; exact Hname|].
    intros code item H. injection H as <- <-.
    exists stored. repeat split; try assumption.
    apply (In_update_by_key Item.id
             (fun x => Item.set_open x (SubmitItem.open submit_item))).
    exact Hin.
Qed.

(** The test user ticks "Milk" off and submits the name "Butter". *)
Lemma C7_update_item_persists_open_only_witness :
  update_item Fixtures.path_2 Fixtures.path_5 (SubmitItem.Build "Butter" false)
    Fixtures.test_user Fixtures.session
  = (Response HTTP_200_OK (Item.Build 5%N 2%N false "Milk" 612475%Z 612475%Z),
     Build_Database (lists Fixtures.session)
       [Item.Build 5%N 2%N false "Milk" 612475%Z 612475%Z;
        Fixtures.other_item]) /\
  map Item.name
    (items (snd (update_item Fixtures.path_2 Fixtures.path_5
                   (SubmitItem.Build "Butter" false)
                   Fixtures.test_user Fixtures.session)))
  = map Item.name (items Fixtures.session).
Proof.
  split; [reflexivity|].
  exact (proj1 (proj2 (C7_update_item_persists_open_only
                         Fixtures.path_2 Fixtures.path_5
                         (SubmitItem.Build "Butter" false)
                         Fixtures.test_user Fixtures.session))).
Defined.

(** C8, as the code has it.  No handler assigns [updated]: [update_list] and
    [update_item] leave the [updated] (and [created]) column of every row as
    it was.  A successful [update_list] with an [open] value answers 200
    with the stored list under the new [open] value and its stored
    timestamps, and that row is in the table after; a successful
    [update_item] does the same for the item. *)
Theorem C8_updates_write_open_and_keep_timestamps :
  (forall (submit : SubmitShoppingList.t) (list_id : UUID)
          (current_user : ShoppingListUser.t) (session : Database),
      let result := update_list submit list_id current_user session in
      map ShoppingList.updated (lists (snd result))
      = map ShoppingList.updated (lists session) /\
      map ShoppingList.created (lists (snd result))
      = map ShoppingList.created (lists session) /\
      forall b code l,
        SubmitShoppingList.open submit = Some b ->
        fst result = Response code l ->
        exists stored,
          In stored (lists session) /\ ShoppingList.id stored = list_id /\
          code = HTTP_200_OK /\
          ShoppingList.open l = b /\
          ShoppingList.updated l = ShoppingList.updated stored /\
          ShoppingList.created l = ShoppingList.created stored /\
          In l (lists (snd result))) /\
  (forall (list_id item_id : string) (submit_item : SubmitItem.t)
          (current_user : ShoppingListUser.t) (session : Database),
      let result := update_item list_id item_id submit_item current_user session in
      map Item.updated (items (snd result)) = map Item.updated (items session) /\
      map Item.created (items (snd result)) = map Item.created (items session) /\
      forall code item,
        fst result = Response code item ->
        exists stored,
          In stored (items session) /\
          code = HTTP_200_OK /\
          Item.open item = SubmitItem.open submit_item /\
          Item.updated item = Item.updated stored /\
          Item.created item = Item.created stored /\
          In item (items (snd result))).
Proof.
  split.
  - intros submit list_id current_user session result.
    pose proof (update_list_inv submit list_id current_user session) as Hinv.
    subst result. cbv zeta in Hinv.
    destruct Hinv as [[Hs Hno]|[(stored & Hin & Hid & Hopen & Hr)
                               |(stored & b & Hin & Hid & Hopen & Hr)]].
    + rewrite Hs. repeat split.
      intros b code l _ H. exfalso. exact (Hno code l H).
    + rewrite Hr. simpl. repeat split.
      intros b code l Hb. rewrite Hopen in Hb. discriminate.
    + rewrite Hr. simpl.
      split; [apply map_update_by_key; reflexivity|].
      split; [apply map_update_by_key; reflexivity|].
      intros b' code l Hb H. rewrite Hopen in Hb.
      injection Hb as <-. injection H as <- <-.
      exists stored. repeat split; try assumption.
      apply (In_update_by_key ShoppingList.id
               (fun x => ShoppingList.set_open x b)).
      exact Hin.
  - intros list_id item_id submit_item current_user session result.
    pose proof (update_item_inv list_id item_id submit_item current_user session)
      as Hinv.
    subst result. cbv zeta in Hinv.
    destruct Hinv as [[Hs Hno]|(stored & Hin & Hr)].
    + rewrite Hs. repeat split.
      intros code item H. exfalso. exact (Hno code item H).
    + rewrite Hr. simpl.
      split; [apply map_update_by_key; reflexivity|].
      split; [apply map_update_by_key; reflexivity|].
      intros code item H. injection H as <- <-.
      exists stored. repeat split; try assumption.
      apply (In_update_by_key Item.id
               (fun x => Item.set_open x (SubmitItem.open submit_item))).
      exact Hin.
Qed.

(** The test user closes list 2. *)
Lemma C8_updates_write_open_and_keep_timestamps_witness :
  update_list (SubmitShoppingList.Build (Some false) None) 2%N
    Fixtures.test_user Fixtures.session
  = (Response HTTP_200_OK (ShoppingList.Build 2%N 1%N false 612473%Z 612473%Z),
     Fixtures.session_closed) /\
  map ShoppingList.updated
    (lists (snd (update_list (SubmitShoppingList.Build (Some false) None) 2%N
                   Fixtures.test_user Fixtures.session)))
  = map ShoppingList.updated (lists Fixtures.session).
Proof.
  split; [reflexivity|].
  exact (proj1 (proj1 C8_updates_write_open_and_keep_timestamps
                  (SubmitShoppingList.Build (Some false) None) 2%N
                  Fixtures.test_user Fixtures.session)).
Defined.

(** C8 as stated fails on the sample store.  Closing list 2 and ticking item
    5 off both succeed and change the [open] flag, and the [updated] value
    returned and stored after each call is the one stored before it: the
    timestamp is not refreshed, at whatever time the request is made. *)
Lemma C8_counterexample :
  ShoppingList.updated Fixtures.shopping_list = 612473%Z /\
  update_list (SubmitShoppingList.Build (Some false) None) 2%N
    Fixtures.test_user Fixtures.session
  = (Response HTTP_200_OK (ShoppingList.Build 2%N 1%N false 612473%Z 612473%Z),
     Build_Database
       [ShoppingList.Build 2%N 1%N false 612473%Z 612473%Z;
        Fixtures.other_shopping_list; Fixtures.another_shopping_list]
       (items Fixtures.session)) /\
  Item.updated Fixtures.item = 612475%Z /\
  update_item Fixtures.path_2 Fixtures.path_5 (SubmitItem.Build "Milk" false)
    Fixtures.test_user Fixtures.session
  = (Response HTTP_200_OK (Item.Build 5%N 2%N false "Milk" 612475%Z 612475%Z),
     Build_Database (lists Fixtures.session)
       [Item.Build 5%N 2%N false "Milk" 612475%Z 612475%Z;
        Fixtures.other_item]).
Proof. repeat split. Qed.

(** ** Lists and items of other users *)

Lemma filter_skip {A : Type} (p : A -> bool) (before after : list A) (x : A) :
  p x = false -> filter p (before ++ x :: after) = filter p (before ++ after).
Proof.
  intros H. rewrite !filter_app. simpl. rewrite H. reflexivity.
Qed.

Lemma get_items_never_forbidden list_id current_user session :
  status_of (fst (get_items list_id current_user session))
  <> Some HTTP_403_FORBIDDEN.
Proof.
  unfold get_items.
  destruct (first (select_owned_list _ _ session)); simpl; discriminate.
Qed.

Lemma update_list_never_forbidden submit list_id current_user session :
  status_of (fst (update_list submit list_id current_user session))
  <> Some HTTP_403_FORBIDDEN.
Proof.
  unfold update_list.
  destruct (if truthy (SubmitShoppingList.open submit) then _ else _);
    [simpl; discriminate|].
  destruct (first (select_owned_list _ _ session)); [|simpl; discriminate].
  destruct (SubmitShoppingList.open submit); simpl; discriminate.
Qed.

Lemma update_item_never_forbidden list_id item_id submit_item current_user
  session :
  status_of (fst (update_item list_id item_id submit_item current_user session))
  <> Some HTTP_403_FORBIDDEN.
Proof.
  unfold update_item.
  destruct (uuid.UUID_of_str list_id); [|simpl; discriminate].
  destruct (first (select_owned_list _ _ session)); [|simpl; discriminate].
  destruct (uuid.UUID_of_str item_id); [|simpl; discriminate].
  destruct (first (select_item _ _ session)); simpl; discriminate.
Qed.

Section Foreign.

Variable current_user : ShoppingListUser.t.

(** *** A list of somebody else *)

Variables (before after : list ShoppingList.t) (foreign : ShoppingList.t)
  (rows : list Item.t).

Hypothesis foreign_owner :
  ShoppingList.user_id foreign <> ShoppingListUser.id current_user.

Hypothesis foreign_fresh :
  forall l, In l (before ++ after) -> ShoppingList.id l <> ShoppingList.id foreign.

Lemma foreign_not_owned (list_id : UUID) :
  is_list_of list_id (ShoppingListUser.id current_user) foreign = false.
Proof.
  unfold is_list_of. apply andb_false_iff. right.
  apply N.eqb_neq. exact foreign_owner.
Qed.

Lemma foreign_not_open :
  is_open_list_of (ShoppingListUser.id current_user) foreign = false.
Proof.
  unfold is_open_list_of. apply andb_false_iff. right.
  apply N.eqb_neq. exact foreign_owner.
Qed.

Lemma select_owned_list_foreign (list_id : UUID) :
  select_owned_list list_id (ShoppingListUser.id current_user)
    (with_list before foreign after rows)
  = select_owned_list list_id (ShoppingListUser.id current_user)
      (without_list before after rows).
Proof.
  unfold select_owned_list. simpl. apply filter_skip. apply foreign_not_owned.
Qed.

Lemma select_open_lists_foreign :
  select_open_lists (ShoppingListUser.id current_user)
    (with_list before foreign after rows)
  = select_open_lists (ShoppingListUser.id current_user)
      (without_list before after rows).
Proof.
  unfold select_open_lists. simpl. apply filter_skip. apply foreign_not_open.
Qed.

Lemma select_owned_list_absent :
  select_owned_list (ShoppingList.id foreign) (ShoppingListUser.id current_user)
    (without_list before after rows) = [].
Proof.
  apply forall_filter_nil. intros r Hr. unfold is_list_of.
  apply andb_false_iff. left. apply N.eqb_neq. apply foreign_fresh. exact Hr.
Qed.

Lemma get_items_foreign (list_id : UUID) :
  fst (get_items list_id current_user (with_list before foreign after rows))
  = fst (get_items list_id current_user (without_list before after rows)).
Proof.
  unfold get_items. rewrite select_owned_list_foreign.
  destruct (first (select_owned_list _ _ _)); reflexivity.
Qed.

Lemma update_list_foreign (submit : SubmitShoppingList.t) (list_id : UUID) :
  fst (update_list submit list_id current_user
         (with_list before foreign after rows))
  = fst (update_list submit list_id current_user
           (without_list before after rows)).
Proof.
  unfold update_list.
  rewrite select_owned_list_foreign, select_open_lists_foreign.
  destruct (if truthy (SubmitShoppingList.open submit) then _ else _);
    [reflexivity|].
  destruct (first (select_owned_list _ _ _)); [|reflexivity].
  destruct (SubmitShoppingList.open submit); reflexivity.
Qed.

Lemma update_item_foreign_list (list_id item_id : string)
  (submit_item : SubmitItem.t) :
  fst (update_item list_id item_id submit_item current_user
         (with_list before foreign after rows))
  = fst (update_item list_id item_id submit_item current_user
           (without_list before after rows)).
Proof.
  unfold update_item.
  destruct (uuid.UUID_of_str list_id) as [lid|]; [|reflexivity].
  rewrite select_owned_list_foreign.
  destruct (first (select_owned_list _ _ _)); [|reflexivity].
  destruct (uuid.UUID_of_str item_id) as [iid|]; [|reflexivity].
  unfold select_item. simpl.
  destruct (first (filter _ rows)); reflexivity.
Qed.

(** *** An item of somebody else *)

Variables (tbl : list ShoppingList.t) (ibefore iafter : list Item.t)
  (foreign_item : Item.t).

Hypothesis foreign_item_owner :
  forall l, In l tbl -> ShoppingList.id l = Item.list_id foreign_item ->
            ShoppingList.user_id l <> ShoppingListUser.id current_user.

Hypothesis foreign_item_fresh :
  forall i, In i (ibefore ++ iafter) -> Item.id i <> Item.id foreign_item.

Lemma foreign_item_not_in_owned (item_id list_id : UUID) (l : ShoppingList.t) :
  first (select_owned_list list_id (ShoppingListUser.id current_user)
           (without_item tbl ibefore iafter))
  = Some l ->
  is_item_of item_id list_id foreign_item = false.
Proof.
  intros H. apply first_filter_Some in H. destruct H as [Hin Hp].
  apply is_list_of_true in Hp. destruct Hp as [Hid Hown].
  unfold is_item_of. apply andb_false_iff. right. apply N.eqb_neq.
  intros E. apply (foreign_item_owner l Hin); [congruence | exact Hown].
Qed.

Lemma select_item_absent (list_id : UUID) :
  select_item (Item.id foreign_item) list_id (without_item tbl ibefore iafter)
  = [].
Proof.
  apply forall_filter_nil. intros r Hr. unfold is_item_of.
  apply andb_false_iff. left. apply N.eqb_neq.
  apply foreign_item_fresh. exact Hr.
Qed.

Lemma update_item_foreign_item (list_id item_id : string)
  (submit_item : SubmitItem.t) :
  fst (update_item list_id item_id submit_item current_user
         (with_item tbl ibefore foreign_item iafter))
  = fst (update_item list_id item_id submit_item current_user
           (without_item tbl ibefore iafter)).
Proof.
  unfold update_item.
  destruct (uuid.UUID_of_str list_id) as [lid|]; [|reflexivity].
  change (select_owned_list lid (ShoppingListUser.id current_user)
            (with_item tbl ibefore foreign_item iafter))
    with (select_owned_list lid (ShoppingListUser.id current_user)
            (without_item tbl ibefore iafter)).
  destruct (first (select_owned_list lid _ _)) as [l|] eqn:Hl; [|reflexivity].
  destruct (uuid.UUID_of_str item_id) as [iid|]; [|reflexivity].
  unfold select_item. simpl.
  rewrite filter_skip by (apply (foreign_item_not_in_owned iid lid l); exact Hl).
  destruct (first (filter _ (ibefore ++ iafter))); reflexivity.
Qed.

Lemma get_items_foreign_item (list_id : UUID) :
  get_items list_id current_user (with_item tbl ibefore foreign_item iafter)
  = (fst (get_items list_id current_user (without_item tbl ibefore iafter)),
     with_item tbl ibefore foreign_item iafter).
Proof.
  unfold get_items.
  change (select_owned_list list_id (ShoppingListUser.id current_user)
            (with_item tbl ibefore foreign_item iafter))
    with (select_owned_list list_id (ShoppingListUser.id current_user)
            (without_item tbl ibefore iafter)).
  destruct (first (select_owned_list list_id _ _)) as [l|] eqn:Hl;
    [|reflexivity].
  unfold relationship_items. simpl. rewrite filter_skip; [reflexivity|].
  apply first_filter_Some in Hl. destruct Hl as [Hin Hp].
  apply is_list_of_true in Hp. destruct Hp as [Hid Hown].
  apply N.eqb_neq. intros E.
  apply (foreign_item_owner l Hin); [congruence | exact Hown].
Qed.

End Foreign.

(** C6, as the code has it.  Take two stores that differ only in one list
    row of another user (missing from one, present in the other), and two
    that differ only in one item row of a list that is not the caller's.
    Every [get_items], [update_list] and [update_item] request of the caller
    has the same outcome in both stores of a pair, and no request is ever
    answered 403.  When the request names the list in question, the outcome
    is 404 for [get_items] and for [update_item], and for [update_list] it
    is 404 unless the request asks for [open = true] while the caller has an
    open list, in which case both stores answer 400.  When the request names
    the item in question and its [list_id] is well formed, the outcome of
    [update_item] is 404. *)
Theorem C6_rows_of_others_are_as_absent :
  forall (current_user : ShoppingListUser.t)
         (before after : list ShoppingList.t) (foreign : ShoppingList.t)
         (rows : list Item.t)
         (tbl : list ShoppingList.t) (ibefore iafter : list Item.t)
         (foreign_item : Item.t),
    ShoppingList.user_id foreign <> ShoppingListUser.id current_user ->
    (forall l, In l (before ++ after) ->
               ShoppingList.id l <> ShoppingList.id foreign) ->
    (forall l, In l tbl -> ShoppingList.id l = Item.list_id foreign_item ->
               ShoppingList.user_id l <> ShoppingListUser.id current_user) ->
    (forall i, In i (ibefore ++ iafter) -> Item.id i <> Item.id foreign_item) ->
    (* the same outcome in both stores *)
    (forall list_id,
        fst (get_items list_id current_user (with_list before foreign after rows))
        = fst (get_items list_id current_user (without_list before after rows)) /\
        fst (get_items list_id current_user
               (with_item tbl ibefore foreign_item iafter))
        = fst (get_items list_id current_user (without_item tbl ibefore iafter))) /\
    (forall submit list_id,
        fst (update_list submit list_id current_user
               (with_list before foreign after rows))
        = fst (update_list submit list_id current_user
                 (without_list before after rows)) /\
        fst (update_list submit list_id current_user
               (with_item tbl ibefore foreign_item iafter))
        = fst (update_list submit list_id current_user
                 (without_item tbl ibefore iafter))) /\
    (forall list_id item_id submit_item,
        fst (update_item list_id item_id submit_item current_user
               (with_list before foreign after rows))
        = fst (update_item list_id item_id submit_item current_user
                 (without_list before after rows)) /\
        fst (update_item list_id item_id submit_item current_user
               (with_item tbl ibefore foreign_item iafter))
        = fst (update_item list_id item_id submit_item current_user
                 (without_item tbl ibefore iafter))) /\
    (* never forbidden *)
    (forall session list_id submit path_list_id path_item_id submit_item,
        status_of (fst (get_items list_id current_user session))
        <> Some HTTP_403_FORBIDDEN /\
        status_of (fst (update_list submit list_id current_user session))
        <> Some HTTP_403_FORBIDDEN /\
        status_of (fst (update_item path_list_id path_item_id submit_item
                          current_user session))
        <> Some HTTP_403_FORBIDDEN) /\
    (* the list in question *)
    fst (get_items (ShoppingList.id foreign) current_user
           (without_list before after rows))
    = HTTPException HTTP_404_NOT_FOUND detail_list_not_found /\
    (forall submit,
        fst (update_list submit (ShoppingList.id foreign) current_user
               (without_list before after rows))
        = if (truthy (SubmitShoppingList.open submit)
              && existsb (is_open_list_of (ShoppingListUser.id current_user))
                   (before ++ after))%bool
          then HTTPException HTTP_400_BAD_REQUEST detail_more_than_one
          else HTTPException HTTP_404_NOT_FOUND detail_list_not_found) /\
    (forall list_id item_id submit_item,
        uuid.UUID_of_str list_id = Some (ShoppingList.id foreign) ->
        fst (update_item list_id item_id submit_item current_user
               (without_list before after rows))
        = HTTPException HTTP_404_NOT_FOUND detail_item_not_found) /\
    (* the item in question *)
    (forall list_id lid item_id submit_item,
        uuid.UUID_of_str list_id = Some lid ->
        uuid.UUID_of_str item_id = Some (Item.id foreign_item) ->
        fst (update_item list_id item_id submit_item current_user
               (without_item tbl ibefore iafter))
        = HTTPException HTTP_404_NOT_FOUND detail_item_not_found).
Proof.
  intros current_user before after foreign rows tbl ibefore iafter foreign_item
    Howner Hfresh Hiowner Hifresh.
  pose proof (select_owned_list_absent current_user before after foreign rows
                Hfresh) as Habsent.
  split; [|split; [|split; [|split; [|split; [|split; [|split]]]]]].
  - intros list_id. split.
    + apply get_items_foreign. exact Howner.
    + rewrite (get_items_foreign_item current_user tbl ibefore iafter
                 foreign_item Hiowner). reflexivity.
  - intros submit list_id. split.
    + apply update_list_foreign. exact Howner.
    + unfold update_list, select_open_lists, select_owned_list. simpl.
      destruct (if truthy (SubmitShoppingList.open submit) then _ else _);
        [reflexivity|].
      destruct (first (filter _ tbl)); [|reflexivity].
      destruct (SubmitShoppingList.open submit); reflexivity.
  - intros list_id item_id submit_item. split.
    + apply update_item_foreign_list. exact Howner.
    + apply update_item_foreign_item. exact Hiowner.
  - intros session list_id submit path_list_id path_item_id submit_item.
    split; [apply get_items_never_forbidden|].
    split; [apply update_list_never_forbidden
           |apply update_item_never_forbidden].
  - unfold get_items. rewrite Habsent. reflexivity.
  - intros submit. rewrite (update_list_unowned _ _ _ _ Habsent). reflexivity.
  - intros list_id item_id submit_item Hl. unfold update_item.
    rewrite Hl, Habsent. reflexivity.
  - intros list_id lid item_id submit_item Hl Hi. unfold update_item.
    rewrite Hl, Hi.
    destruct (first (select_owned_list _ _ _)); [|reflexivity].
    rewrite (select_item_absent tbl ibefore iafter foreign_item Hifresh).
    reflexivity.
Qed.

(** The sample store with and without the list 4 and the item 6 of the
    other user: the test user asks for the items of list 4. *)
Lemma C6_rows_of_others_are_as_absent_witness :
  fst (get_items 4%N Fixtures.test_user
         (with_list [Fixtures.shopping_list; Fixtures.other_shopping_list]
            Fixtures.another_shopping_list [] (items Fixtures.session)))
  = fst (get_items 4%N Fixtures.test_user
           (without_list [Fixtures.shopping_list; Fixtures.other_shopping_list]
              [] (items Fixtures.session))) /\
  fst (get_items 4%N Fixtures.test_user
         (without_list [Fixtures.shopping_list; Fixtures.other_shopping_list]
            [] (items Fixtures.session)))
  = HTTPException HTTP_404_NOT_FOUND detail_list_not_found.
Proof.
  assert (H1 : ShoppingList.user_id Fixtures.another_shopping_list
               <> ShoppingListUser.id Fixtures.test_user)
    by (simpl; discriminate).
  assert (H2 : forall l,
             In l ([Fixtures.shopping_list; Fixtures.other_shopping_list] ++ []) ->
             ShoppingList.id l <> ShoppingList.id Fixtures.another_shopping_list).
  { intros l Hl. simpl in Hl.
    destruct Hl as [<-|[<-|[]]]; simpl; discriminate. }
  assert (H3 : forall l,
             In l (lists Fixtures.session) ->
             ShoppingList.id l = Item.list_id Fixtures.other_item ->
             ShoppingList.user_id l <> ShoppingListUser.id Fixtures.test_user).
  { intros l Hl. simpl in Hl.
    destruct Hl as [<-|[<-|[<-|[]]]]; simpl; discriminate. }
  assert (H4 : forall i,
             In i ([Fixtures.item] ++ []) ->
             Item.id i <> Item.id Fixtures.other_item).
  { intros i Hi. simpl in Hi. destruct Hi as [<-|[]]; simpl; discriminate. }
  pose proof (C6_rows_of_others_are_as_absent Fixtures.test_user
                [Fixtures.shopping_list; Fixtures.other_shopping_list] []
                Fixtures.another_shopping_list (items Fixtures.session)
                (lists Fixtures.session) [Fixtures.item] []
                Fixtures.other_item H1 H2 H3 H4) as H.
  split.
  - exact (proj1 (proj1 H 4%N)).
  - exact (proj1 (proj2 (proj2 (proj2 (proj2 H))))).
Defined.

(** C6 as stated fails on the sample store.  The list 4 belongs to another
    user; the test user has an open list and asks for [open = true] on list
    4.  With list 4 in the store and without it the answer is the same, and
    it is the 400 of the open-list check, not 404. *)
Lemma C6_counterexample :
  with_list [Fixtures.shopping_list; Fixtures.other_shopping_list]
    Fixtures.another_shopping_list [] (items Fixtures.session)
  = Fixtures.session /\
  ShoppingList.id Fixtures.another_shopping_list = 4%N /\
  ShoppingList.user_id Fixtures.another_shopping_list = 8%N /\
  ShoppingListUser.id Fixtures.test_user = 1%N /\
  fst (update_list (SubmitShoppingList.Build (Some true) None) 4%N
         Fixtures.test_user Fixtures.session)
  = HTTPException HTTP_400_BAD_REQUEST detail_more_than_one /\
  fst (update_list (SubmitShoppingList.Build (Some true) None) 4%N
         Fixtures.test_user
         (without_list [Fixtures.shopping_list; Fixtures.other_shopping_list]
            [] (items Fixtures.session)))
  = HTTPException HTTP_400_BAD_REQUEST detail_more_than_one.
Proof. repeat split. Qed.

(** ** The scenarios of test_main.py, replayed on the model *)

(** [test_create_lists]: 400 for no items, 200 for two items, which are
    stored in the submitted order, then 403. *)
Example test_create_lists :
  let submit := SubmitShoppingList.Build (Some true) in
  let milk_and_eggs :=
    [SubmitItem.Build "Milk" true; SubmitItem.Build "Eggs" true] in
  let create s := create_list Fixtures.defaults Fixtures.uuid4 s
                    Fixtures.test_user in
  status_of (fst (create (submit (Some [])) Fixtures.empty_session))
  = Some HTTP_400_BAD_REQUEST /\
  status_of (fst (create (submit (Some milk_and_eggs)) Fixtures.empty_session))
  = Some HTTP_200_OK /\
  map Item.name
    (items (snd (create (submit (Some milk_and_eggs)) Fixtures.empty_session)))
  = ["Milk"; "Eggs"] /\
  status_of
    (fst (create (submit (Some milk_and_eggs))
            (snd (create (submit (Some milk_and_eggs)) Fixtures.empty_session))))
  = Some HTTP_403_FORBIDDEN.
Proof. repeat split. Qed.

(** [test_update_list]: 400 for opening the closed list while another one
    is open, 200 for closing the open one, 404 for the list of another
    user. *)
Example test_update_list :
  status_of (fst (put_list (Build_body (Value true) Null) 3%N
                    Fixtures.test_user Fixtures.session))
  = Some HTTP_400_BAD_REQUEST /\
  fst (put_list (Build_body (Value false) Null) 2%N
         Fixtures.test_user Fixtures.session)
  = Response HTTP_200_OK (ShoppingList.set_open Fixtures.shopping_list false) /\
  status_of (fst (put_list (Build_body (Value false) Null) 4%N
                    Fixtures.test_user
                    (snd (put_list (Build_body (Value false) Null) 2%N
                            Fixtures.test_user Fixtures.session))))
  = Some HTTP_404_NOT_FOUND.
Proof. repeat split. Qed.

(** [test_get_items]: the items of the own list, 404 for the list of another
    user. *)
Example test_get_items :
  fst (get_items 2%N Fixtures.test_user Fixtures.session)
  = Response HTTP_200_OK [Fixtures.item] /\
  status_of (fst (get_items 4%N Fixtures.test_user Fixtures.session))
  = Some HTTP_404_NOT_FOUND.
Proof. repeat split. Qed.

(** [test_update_item]: 200 and [open = false] for the own item, 404 for the
    item of another user. *)
Example test_update_item :
  fst (update_item Fixtures.path_2 Fixtures.path_5
         (SubmitItem.Build "Milk" false) Fixtures.test_user Fixtures.session)
  = Response HTTP_200_OK (Item.set_open Fixtures.item false) /\
  status_of
    (fst (update_item Fixtures.path_4 Fixtures.path_6
            (SubmitItem.Build "Someone else's Milk" false)
            Fixtures.test_user Fixtures.session))
  = Some HTTP_404_NOT_FOUND.
Proof. repeat split. Qed.

(** ** Reading lists and items back *)

(** X1.
    What [get_lists] returns: the rows of the list table that belong to the
    caller and, when a filter is given, have that [open] value, and nothing
    else; the database is not written to. *)
Theorem get_lists_returns_the_callers_lists :
  forall (current_user : ShoppingListUser.t) (open : option bool)
         (session : Database),
    snd (get_lists current_user open session) = session /\
    exists content,
      fst (get_lists current_user open session) = Response HTTP_200_OK content /\
      forall l,
        In l content <->
        In l (lists session) /\
        ShoppingList.user_id l = ShoppingListUser.id current_user /\
        (forall b, open = Some b -> ShoppingList.open l = b).
Proof.
  intros current_user open session. destruct open as [b|]; simpl.
  - split; [reflexivity|]. eexists. split; [reflexivity|].
    intros l. rewrite filter_In, andb_true_iff, N.eqb_eq.
    split.
    + intros (Hin & Hb & Hu). repeat split; try assumption.
      intros b' Hb'. injection Hb' as <-. apply eqb_prop. exact Hb.
    + intros (Hin & Hu & Hb). repeat split; try assumption.
      rewrite (Hb b eq_refl). apply eqb_reflx.
  - split; [reflexivity|]. eexists. split; [reflexivity|].
    intros l. rewrite filter_In, N.eqb_eq.
    split.
    + intros (Hin & Hu). repeat split; try assumption. discriminate.
    + intros (Hin & Hu & _). split; assumption.
Qed.

(** X2.
    In a database that satisfies INV-1, [get_lists] with [open = true]
    returns at most one list. *)
Theorem get_lists_open_at_most_one :
  forall (current_user : ShoppingListUser.t) (session : Database)
         (code : status) (content : list ShoppingList.t),
    INV_1 session ->
    fst (get_lists current_user (Some true) session) = Response code content ->
    List.length content <= 1.
Proof.
  intros current_user session code content Hinv H. simpl in H.
  injection H as _ <-. exact (Hinv (ShoppingListUser.id current_user)).
Qed.

Lemma get_lists_open_at_most_one_witness :
  fst (get_lists Fixtures.test_user (Some true) Fixtures.session)
  = Response HTTP_200_OK [Fixtures.shopping_list] /\
  List.length [Fixtures.shopping_list] <= 1.
Proof.
  split; [reflexivity|].
  apply (get_lists_open_at_most_one Fixtures.test_user Fixtures.session
           HTTP_200_OK [Fixtures.shopping_list]).
  - exact fixtures_INV_1.
  - reflexivity.
Defined.

Lemma filter_partition_length {A : Type} (p q : A -> bool) (rows : list A) :
  List.length (filter q rows)
  = List.length (filter (fun x => (p x && q x)%bool) rows)
    + List.length (filter (fun x => (negb (p x) && q x)%bool) rows).
Proof.
  induction rows as [|x xs IH]; simpl; [reflexivity|].
  destruct (q x), (p x); simpl; lia.
Qed.

(** X3.
    The two filters of [get_lists] split the unfiltered answer: every list
    of the caller is in exactly one of the answers for [open = true] and
    [open = false]. *)
Theorem get_lists_filters_partition :
  forall (current_user : ShoppingListUser.t) (session : Database),
  exists every opened closed,
    fst (get_lists current_user None session) = Response HTTP_200_OK every /\
    fst (get_lists current_user (Some true) session)
    = Response HTTP_200_OK opened /\
    fst (get_lists current_user (Some false) session)
    = Response HTTP_200_OK closed /\
    List.length every = List.length opened + List.length closed /\
    (forall l, In l every <-> In l opened \/ In l closed) /\
    (forall l, In l opened -> ~ In l closed).
Proof.
  intros current_user session. simpl.
  eexists _, _, _. split; [reflexivity|]. split; [reflexivity|].
  split; [reflexivity|].
  split; [|split].
  - rewrite (filter_partition_length
               (fun l => Bool.eqb (ShoppingList.open l) true)).
    f_equal. f_equal. apply filter_ext. intros l.
    destruct (ShoppingList.open l); reflexivity.
  - intros l. rewrite !filter_In, !andb_true_iff.
    destruct (ShoppingList.open l); simpl; intuition discriminate.
  - intros l. rewrite !filter_In, !andb_true_iff.
    destruct (ShoppingList.open l); simpl; intuition discriminate.
Qed.

(** X4.
    [get_items] answers with items only for a list of the caller, and then
    with exactly the rows of the item table whose [list_id] is the one
    asked for; the database is not written to. *)
Theorem get_items_returns_the_items_of_an_owned_list :
  forall (list_id : UUID) (current_user : ShoppingListUser.t)
         (session : Database) (code : status) (content : list Item.t),
    fst (get_items list_id current_user session) = Response code content ->
    code = HTTP_200_OK /\
    snd (get_items list_id current_user session) = session /\
    (exists l, In l (lists session) /\ ShoppingList.id l = list_id /\
               ShoppingList.user_id l = ShoppingListUser.id current_user) /\
    (forall i, In i content <->
               In i (items session) /\ Item.list_id i = list_id).
Proof.
  intros list_id current_user session code content H.
  unfold get_items in *.
  destruct (first (select_owned_list _ _ session)) as [l|] eqn:E;
    [|discriminate].
  simpl in H. injection H as <- <-.
  apply first_filter_Some in E. destruct E as [Hin Hp].
  apply is_list_of_true in Hp. destruct Hp as [Hid Hown].
  split; [reflexivity|]. split; [reflexivity|].
  split; [exists l; repeat split; assumption|].
  intros i. unfold relationship_items. rewrite filter_In, N.eqb_eq, Hid.
  reflexivity.
Qed.

Lemma get_items_returns_the_items_of_an_owned_list_witness :
  fst (get_items 2%N Fixtures.test_user Fixtures.session)
  = Response HTTP_200_OK [Fixtures.item] /\
  (forall i, In i [Fixtures.item] <->
             In i (items Fixtures.session) /\ Item.list_id i = 2%N).
Proof.
  split; [reflexivity|].
  exact (proj2 (proj2 (proj2
           (get_items_returns_the_items_of_an_owned_list 2%N
              Fixtures.test_user Fixtures.session HTTP_200_OK
              [Fixtures.item] eq_refl)))).
Defined.

(** ** [create_list], then the other requests *)

(** What a successful [create_list] found and wrote. *)
Lemma create_list_success_inv defaults uuid4 submit current_user session
  session' code l :
  create_list defaults uuid4 submit current_user session
  = (Response code l, session') ->
  code = HTTP_200_OK /\
  select_open_lists (ShoppingListUser.id current_user) session = [] /\
  l = ShoppingList.Build (uuid4 0) (ShoppingListUser.id current_user) true
        (ShoppingList_created defaults) (ShoppingList_updated defaults) /\
  existsb (fun r => N.eqb (ShoppingList.id r) (uuid4 0)) (lists session)
  = false /\
  lists session' = lists session ++ [l] /\
  exists submitted,
    SubmitShoppingList.items submit = Some submitted /\
    submitted <> [] /\
    items session'
    = items session ++ new_items defaults (uuid4 0) uuid4 1 submitted.
Proof.
  intros H. unfold create_list in H.
  destruct (first (select_open_lists _ session)) eqn:Hopen; [discriminate|].
  destruct (SubmitShoppingList.items submit) as [submitted|]; [|discriminate].
  destruct (Nat.eqb (List.length submitted) 0) eqn:Hlen; [discriminate|].
  destruct (insert_list _ session) as [s1|] eqn:H1; [|discriminate].
  destruct (insert_items _ s1) as [s2|] eqn:H2; [|discriminate].
  injection H as <- <- <-.
  unfold insert_list in H1. simpl in H1.
  destruct (existsb _ (lists session)) eqn:Hfresh; [discriminate|].
  injection H1 as <-.
  pose proof (insert_items_lists _ _ _ H2) as Hl.
  pose proof (insert_items_items _ _ _ H2) as Hi.
  simpl in Hl, Hi.
  split; [reflexivity|].
  split; [apply first_filter_None; exact Hopen|].
  split; [reflexivity|]. split; [reflexivity|]. split; [exact Hl|].
  exists submitted. split; [reflexivity|]. split; [|exact Hi].
  intros ->. discriminate Hlen.
Qed.

Lemma existsb_false_forall {A : Type} (p : A -> bool) (rows : list A) :
  existsb p rows = false -> forall r, In r rows -> p r = false.
Proof.
  intros H r Hr. destruct (p r) eqn:E; [|reflexivity].
  assert (Ht : existsb p rows = true) by (apply existsb_exists; exists r; auto).
  rewrite H in Ht. discriminate.
Qed.

Lemma filter_all {A : Type} (p : A -> bool) (rows : list A) :
  (forall r, In r rows -> p r = true) -> filter p rows = rows.
Proof.
  induction rows as [|x xs IH]; intros H; simpl; [reflexivity|].
  rewrite (H x (or_introl eq_refl)). f_equal. apply IH.
  intros r Hr. apply H. right. exact Hr.
Qed.

(** X5.
    After a successful [create_list] the caller reads the submitted items
    back: in a database that satisfies the foreign-key constraint of the
    item table, [get_items] on the new list answers 200 with exactly the
    rows just added, which carry the submitted names and [open] values in
    the submitted order. *)
Theorem create_list_then_get_items :
  forall (defaults : FieldDefaults) (uuid4 : nat -> UUID)
         (submit : SubmitShoppingList.t) (current_user : ShoppingListUser.t)
         (session session' : Database) (code : status) (l : ShoppingList.t),
    foreign_keys session ->
    create_list defaults uuid4 submit current_user session
    = (Response code l, session') ->
    exists submitted added,
      SubmitShoppingList.items submit = Some submitted /\
      get_items (ShoppingList.id l) current_user session'
      = (Response HTTP_200_OK added, session') /\
      map Item.name added = map SubmitItem.name submitted /\
      map Item.open added = map SubmitItem.open submitted.
Proof.
  intros defaults uuid4 submit current_user session session' code l Hfk H.
  destruct (create_list_success_inv _ _ _ _ _ _ _ _ H)
    as (_ & _ & Hl & Hfresh & Hlists & submitted & Hsub & _ & Hitems).
  exists submitted, (new_items defaults (uuid4 0) uuid4 1 submitted).
  split; [exact Hsub|].
  split; [|split; [apply new_items_name | apply new_items_open]].
  assert (Hid : ShoppingList.id l = uuid4 0) by (rewrite Hl; reflexivity).
  unfold get_items, select_owned_list. rewrite Hlists, filter_app.
  rewrite (forall_filter_nil _ (lists session)).
  2:{ intros r Hr. unfold is_list_of. apply andb_false_iff. left.
      rewrite Hid. exact (existsb_false_forall _ _ Hfresh r Hr). }
  simpl.
  assert (Hown : is_list_of (ShoppingList.id l)
                   (ShoppingListUser.id current_user) l = true).
  { unfold is_list_of. rewrite Hl. simpl. rewrite !N.eqb_refl. reflexivity. }
  rewrite Hown. simpl. f_equal. f_equal.
  unfold relationship_items. rewrite Hitems, filter_app.
  rewrite (forall_filter_nil _ (items session)).
  2:{ intros i Hi. apply N.eqb_neq. intros E.
      destruct (Hfk i Hi) as (r & Hr & Hri).
      pose proof (existsb_false_forall _ _ Hfresh r Hr) as Hne.
      simpl in Hne. apply N.eqb_neq in Hne. apply Hne. congruence. }
  simpl. apply filter_all. intros i Hi. apply N.eqb_eq.
  pose proof (new_items_list_id defaults (uuid4 0) uuid4 1 submitted) as Hall.
  rewrite Forall_forall in Hall. rewrite (Hall i Hi). symmetry. exact Hid.
Qed.

Lemma fixtures_closed_foreign_keys : foreign_keys Fixtures.session_closed.
Proof.
  intros i Hi. simpl in Hi. destruct Hi as [<-|[<-|[]]].
  - exists (ShoppingList.set_open Fixtures.shopping_list false).
    split; [left; reflexivity | reflexivity].
  - exists Fixtures.another_shopping_list.
    split; [right; right; left; reflexivity | reflexivity].
Defined.

Lemma create_list_then_get_items_witness :
  exists submitted added,
    Some Fixtures.milk_and_eggs = Some submitted /\
    get_items 100%N Fixtures.test_user
      (snd (create_list Fixtures.defaults Fixtures.uuid4
              (SubmitShoppingList.Build (Some true)
                 (Some Fixtures.milk_and_eggs))
              Fixtures.test_user Fixtures.session_closed))
    = (Response HTTP_200_OK added,
       snd (create_list Fixtures.defaults Fixtures.uuid4
              (SubmitShoppingList.Build (Some true)
                 (Some Fixtures.milk_and_eggs))
              Fixtures.test_user Fixtures.session_closed)) /\
    map Item.name added = map SubmitItem.name submitted /\
    map Item.open added = map SubmitItem.open submitted.
Proof.
  exact (create_list_then_get_items Fixtures.defaults Fixtures.uuid4
           (SubmitShoppingList.Build (Some true) (Some Fixtures.milk_and_eggs))
           Fixtures.test_user Fixtures.session_closed _ _ _
           fixtures_closed_foreign_keys eq_refl).
Defined.

(** X6.
    After a successful [create_list] the new list is the caller's one open
    list: [get_lists] with [open = true] answers with it alone, any further
    [create_list] of the caller is refused with 403 whatever is submitted,
    and any [update_list] of the caller that asks for [open = true] is
    refused with 400 whatever list it names. *)
Theorem create_list_then_the_list_is_the_open_one :
  forall (defaults : FieldDefaults) (uuid4 : nat -> UUID)
         (submit : SubmitShoppingList.t) (current_user : ShoppingListUser.t)
         (session session' : Database) (code : status) (l : ShoppingList.t),
    create_list defaults uuid4 submit current_user session
    = (Response code l, session') ->
    fst (get_lists current_user (Some true) session')
    = Response HTTP_200_OK [l] /\
    (forall defaults' uuid4' submit',
        create_list defaults' uuid4' submit' current_user session'
        = (HTTPException HTTP_403_FORBIDDEN detail_more_than_one, session')) /\
    (forall submitted list_id,
        update_list (SubmitShoppingList.Build (Some true) submitted) list_id
          current_user session'
        = (HTTPException HTTP_400_BAD_REQUEST detail_more_than_one, session')).
Proof.
  intros defaults uuid4 submit current_user session session' code l H.
  destruct (create_list_success_inv _ _ _ _ _ _ _ _ H)
    as (_ & Hnone & Hl & _ & Hlists & _).
  assert (Hopen : select_open_lists (ShoppingListUser.id current_user) session'
                  = [l]).
  { unfold select_open_lists in *. rewrite Hlists, filter_app, Hnone. simpl.
    rewrite Hl. unfold is_open_list_of. simpl. rewrite N.eqb_refl.
    reflexivity. }
  split; [|split].
  - simpl. f_equal. exact Hopen.
  - intros defaults' uuid4' submit'. unfold create_list. rewrite Hopen.
    reflexivity.
  - intros submitted list_id. unfold update_list. simpl. rewrite Hopen.
    reflexivity.
Qed.

Lemma create_list_then_the_list_is_the_open_one_witness :
  fst (get_lists Fixtures.test_user (Some true)
         (snd (create_list Fixtures.defaults Fixtures.uuid4
                 (SubmitShoppingList.Build (Some false)
                    (Some Fixtures.milk_and_eggs))
                 Fixtures.test_user Fixtures.session_closed)))
  = Response HTTP_200_OK
      [ShoppingList.Build 100%N 1%N true 700000%Z 700001%Z].
Proof.
  exact (proj1 (create_list_then_the_list_is_the_open_one
                  Fixtures.defaults Fixtures.uuid4
                  (SubmitShoppingList.Build (Some false)
                     (Some Fixtures.milk_and_eggs))
                  Fixtures.test_user Fixtures.session_closed _ _ _ eq_refl)).
Defined.

Lemma not_in_existsb {A : Type} (key : A -> N) (k : N) (rows : list A) :
  ~ In k (map key rows) -> existsb (fun r => N.eqb (key r) k) rows = false.
Proof.
  intros H. destruct (existsb _ rows) eqn:E; [|reflexivity].
  apply existsb_exists in E. destruct E as (r & Hr & Hk).
  apply N.eqb_eq in Hk. exfalso. apply H. rewrite <- Hk.
  apply in_map. exact Hr.
Qed.

(** The INSERTs of the item rows go through when the generated identifiers
    are new to the table and distinct. *)
Lemma insert_items_succeeds defaults list_id uuid4 submitted :
  forall (n : nat) (session : Database),
    NoDup (map uuid4 (seq n (List.length submitted))) ->
    (forall k, In k (seq n (List.length submitted)) ->
               ~ In (uuid4 k) (map Item.id (items session))) ->
    insert_items (new_items defaults list_id uuid4 n submitted) session
    = Some (Build_Database (lists session)
              (items session ++ new_items defaults list_id uuid4 n submitted)).
Proof.
  induction submitted as [|s rest IH]; intros n session Hnd Hfresh; simpl.
  - rewrite app_nil_r. destruct session; reflexivity.
  - simpl in Hnd. inversion Hnd as [|? ? Hhead Htail]; subst.
    unfold insert_item. simpl.
    rewrite (not_in_existsb Item.id (uuid4 n) (items session)).
    2:{ apply Hfresh. simpl. left. reflexivity. }
    rewrite IH; simpl.
    + rewrite <- app_assoc. reflexivity.
    + exact Htail.
    + intros k Hk. rewrite map_app. simpl. intros Hin.
      apply in_app_or in Hin. destruct Hin as [Hin|[Hin|[]]].
      * apply (Hfresh k); [simpl; right; exact Hk | exact Hin].
      * apply Hhead. rewrite Hin. apply in_map. exact Hk.
Qed.

(** X7.
    [create_list] succeeds whenever the caller has no open list, at least
    one item is submitted and the generated identifiers are new and
    distinct: the lists of the other users do not matter.  The answer is 200
    with an open list of the caller, and the list and its items are
    appended to the tables. *)
Theorem create_list_succeeds :
  forall (defaults : FieldDefaults) (uuid4 : nat -> UUID)
         (open : option bool) (submitted : list SubmitItem.t)
         (current_user : ShoppingListUser.t) (session : Database),
    select_open_lists (ShoppingListUser.id current_user) session = [] ->
    submitted <> [] ->
    ~ In (uuid4 0) (map ShoppingList.id (lists session)) ->
    NoDup (map uuid4 (seq 1 (List.length submitted))) ->
    (forall k, In k (seq 1 (List.length submitted)) ->
               ~ In (uuid4 k) (map Item.id (items session))) ->
    let l := ShoppingList.Build (uuid4 0) (ShoppingListUser.id current_user)
               true (ShoppingList_created defaults)
               (ShoppingList_updated defaults) in
    create_list defaults uuid4 (SubmitShoppingList.Build open (Some submitted))
      current_user session
    = (Response HTTP_200_OK l,
       Build_Database (lists session ++ [l])
         (items session ++ new_items defaults (uuid4 0) uuid4 1 submitted)).
Proof.
  intros defaults uuid4 open submitted current_user session
    Hnone Hne Hfresh Hnd Hifresh l.
  unfold create_list. rewrite Hnone. simpl.
  destruct submitted as [|s rest]; [exfalso; apply Hne; reflexivity|].
  cbn [List.length Nat.eqb].
  unfold insert_list. cbn [ShoppingList.id].
  rewrite (not_in_existsb ShoppingList.id (uuid4 0) (lists session) Hfresh).
  rewrite insert_items_succeeds; [reflexivity | exact Hnd | exact Hifresh].
Qed.

Lemma create_list_succeeds_witness :
  create_list Fixtures.defaults Fixtures.uuid4
    (SubmitShoppingList.Build (Some false) (Some Fixtures.milk_and_eggs))
    Fixtures.test_user Fixtures.session_closed
  = (Response HTTP_200_OK
       (ShoppingList.Build 100%N 1%N true 700000%Z 700001%Z),
     Build_Database
       (lists Fixtures.session_closed
        ++ [ShoppingList.Build 100%N 1%N true 700000%Z 700001%Z])
       (items Fixtures.session_closed
        ++ new_items Fixtures.defaults 100%N Fixtures.uuid4 1
             Fixtures.milk_and_eggs)).
Proof.
  apply (create_list_succeeds Fixtures.defaults Fixtures.uuid4 (Some false)
           Fixtures.milk_and_eggs Fixtures.test_user Fixtures.session_closed).
  - reflexivity.
  - discriminate.
  - simpl. intros H.
    repeat (destruct H as [H|H]; [discriminate H|]). exact H.
  - distinct_keys.
  - intros k Hk. simpl in Hk. destruct Hk as [<-|[<-|[]]]; simpl; intros H;
      repeat (destruct H as [H|H]; [discriminate H|]); exact H.
Defined.

(** ** The constraints of the schema *)

Lemma create_list_keeps_schema defaults uuid4 submit current_user session :
  primary_keys session -> foreign_keys session ->
  let session' := snd (create_list defaults uuid4 submit current_user session) in
  primary_keys session' /\ foreign_keys session'.
Proof.
  intros Hpk Hfk. unfold create_list.
  destruct (first (select_open_lists _ session)); [split; assumption|].
  destruct (SubmitShoppingList.items submit) as [submitted|];
    [|split; assumption].
  destruct (Nat.eqb (List.length submitted) 0); [split; assumption|].
  destruct (insert_list _ session) as [s1|] eqn:H1; [|split; assumption].
  destruct (insert_items _ s1) as [s2|] eqn:H2; [|split; assumption].
  simpl. unfold insert_list in H1.
  destruct (existsb _ (lists session)) eqn:Hfresh; [discriminate|].
  injection H1 as <-. destruct Hpk as [Hl Hi].
  pose proof (insert_items_lists _ _ _ H2) as Hlists.
  pose proof (insert_items_items _ _ _ H2) as Hitems.
  simpl in Hlists, Hitems.
  split.
  - split.
    + rewrite Hlists. apply NoDup_snoc; assumption.
    + eapply insert_items_keys; [|exact H2]. exact Hi.
  - intros i Hin. rewrite Hitems in Hin. rewrite Hlists.
    apply in_app_or in Hin. destruct Hin as [Hin|Hin].
    + destruct (Hfk i Hin) as (l & Hl' & Hid).
      exists l. split; [apply in_or_app; left; exact Hl' | exact Hid].
    + eexists. split; [apply in_or_app; right; left; reflexivity|].
      pose proof (new_items_list_id defaults (uuid4 0) uuid4 1 submitted)
        as Hall.
      rewrite Forall_forall in Hall. rewrite (Hall i Hin). reflexivity.
Qed.

Lemma update_list_open_foreign_keys list_id b session :
  foreign_keys session -> foreign_keys (update_list_open list_id b session).
Proof.
  intros Hfk i Hin. simpl in Hin. destruct (Hfk i Hin) as (l & Hl & Hid).
  exists (if N.eqb (ShoppingList.id l) list_id
          then ShoppingList.set_open l b else l).
  split.
  - simpl. apply in_map_iff. exists l. split; [reflexivity | exact Hl].
  - destruct (N.eqb (ShoppingList.id l) list_id); exact Hid.
Qed.

Lemma update_item_open_foreign_keys item_id b session :
  foreign_keys session -> foreign_keys (update_item_open item_id b session).
Proof.
  intros Hfk i Hin. simpl in Hin. apply in_map_iff in Hin.
  destruct Hin as (i0 & Hi0 & Hin0).
  destruct (Hfk i0 Hin0) as (l & Hl & Hid).
  exists l. split; [exact Hl|]. rewrite Hid, <- Hi0.
  destruct (N.eqb (Item.id i0) item_id); reflexivity.
Qed.

Lemma execute_keeps_schema (op : operation) (session : Database) :
  primary_keys session -> foreign_keys session ->
  primary_keys (execute op session) /\ foreign_keys (execute op session).
Proof.
  intros Hpk Hfk. destruct op; simpl.
  - apply create_list_keeps_schema; assumption.
  - destruct (update_list_inv submit_shopping_list list_id current_user session)
      as [[Hs _]|[(stored & _ & _ & _ & Hr)|(stored & b & _ & _ & _ & Hr)]].
    + rewrite Hs. split; assumption.
    + rewrite Hr. split; assumption.
    + rewrite Hr. simpl.
      split; [apply update_list_open_keys | apply update_list_open_foreign_keys];
        assumption.
  - destruct (update_item_inv list_id item_id submit_item current_user session)
      as [[Hs _]|(stored & _ & Hr)].
    + rewrite Hs. split; assumption.
    + rewrite Hr. simpl.
      split; [apply update_item_open_keys | apply update_item_open_foreign_keys];
        assumption.
Qed.

(** X8.
    The handlers keep the constraints of the schema: starting from a
    database whose primary keys are unique and whose items all refer to a
    stored list, every committed state of every sequential execution of
    [create_list], [update_list] and [update_item] requests has unique
    primary keys and no item without its list. *)
Theorem handlers_keep_the_schema_constraints :
  forall (session : Database) (ops : list operation),
    primary_keys session -> foreign_keys session ->
    Forall (fun s => primary_keys s /\ foreign_keys s)
      (committed_states ops session).
Proof.
  intros session ops. revert session.
  induction ops as [|op rest IH]; intros session Hpk Hfk; simpl.
  - constructor; [split; assumption | constructor].
  - constructor; [split; assumption|].
    destruct (execute_keeps_schema op session Hpk Hfk) as [Hpk' Hfk'].
    apply IH; assumption.
Qed.

Lemma fixtures_foreign_keys : foreign_keys Fixtures.session.
Proof.
  intros i Hi. simpl in Hi. destruct Hi as [<-|[<-|[]]].
  - exists Fixtures.shopping_list.
    split; [left; reflexivity | reflexivity].
  - exists Fixtures.another_shopping_list.
    split; [right; right; left; reflexivity | reflexivity].
Defined.

Lemma handlers_keep_the_schema_constraints_witness :
  Forall (fun s => primary_keys s /\ foreign_keys s)
    (committed_states
       [call_update_list (SubmitShoppingList.Build (Some false) None) 2%N
          Fixtures.test_user;
        call_create_list Fixtures.defaults Fixtures.uuid4
          (SubmitShoppingList.Build (Some true) (Some Fixtures.milk_and_eggs))
          Fixtures.test_user;
        call_update_item Fixtures.path_2 Fixtures.path_5
          (SubmitItem.Build "Milk" false) Fixtures.test_user]
       Fixtures.session).
Proof.
  apply handlers_keep_the_schema_constraints.
  - exact fixtures_primary_keys.
  - exact fixtures_foreign_keys.
Defined.

(** ** The rows an update writes *)

Lemma key_split {A : Type} (key : A -> N) (rows : list A) (r : A) :
  NoDup (map key rows) -> In r rows ->
  exists before after,
    rows = before ++ r :: after /\
    (forall x, In x before -> key x <> key r) /\
    (forall x, In x after -> key x <> key r).
Proof.
  intros Hnd Hin.
  destruct (in_split _ _ Hin) as (before & after & ->).
  exists before, after. split; [reflexivity|].
  rewrite map_app in Hnd. simpl in Hnd.
  pose proof (NoDup_remove_2 _ _ _ Hnd) as Hout.
  split; intros x Hx E; apply Hout; apply in_or_app; [left|right];
    rewrite <- E; apply in_map; exact Hx.
Qed.

Lemma update_other_keys {A : Type} (key : A -> N) (g : A -> A) (k : N)
  (rows : list A) :
  (forall x, In x rows -> key x <> k) ->
  map (fun x => if N.eqb (key x) k then g x else x) rows = rows.
Proof.
  intros H. rewrite <- (map_id rows) at 2. apply map_ext_in.
  intros x Hx. destruct (N.eqb_spec (key x) k) as [E|]; [|reflexivity].
  exfalso. exact (H x Hx E).
Qed.

Lemma filter_map_commute {A : Type} (p : A -> bool) (f : A -> A)
  (rows : list A) :
  (forall x, p (f x) = p x) -> filter p (map f rows) = map f (filter p rows).
Proof.
  intros H. induction rows as [|x xs IH]; simpl; [reflexivity|].
  rewrite H. destruct (p x); simpl; rewrite IH; reflexivity.
Qed.

Lemma first_map {A : Type} (f : A -> A) (rows : list A) :
  first (map f rows) = option_map f (first rows).
Proof. destruct rows; reflexivity. Qed.

(** X9.
    With unique primary keys, a successful [update_list] rewrites one row of
    the list table, which is the named list and belongs to the caller: the
    rows before and after it, the lists of every other user among them, and
    the whole item table are left as they were.  The returned list is the
    row as it is stored afterwards. *)
Theorem update_list_writes_one_row_of_the_caller :
  forall (submit : SubmitShoppingList.t) (list_id : UUID)
         (current_user : ShoppingListUser.t) (session session' : Database)
         (code : status) (l : ShoppingList.t),
    primary_keys session ->
    update_list submit list_id current_user session
    = (Response code l, session') ->
    exists before stored after,
      lists session = before ++ stored :: after /\
      lists session' = before ++ l :: after /\
      items session' = items session /\
      ShoppingList.id stored = list_id /\
      ShoppingList.user_id stored = ShoppingListUser.id current_user /\
      l = match SubmitShoppingList.open submit with
          | Some b => ShoppingList.set_open stored b
          | None => stored
          end.
Proof.
  intros submit list_id current_user session session' code l [Hpk _] H.
  unfold update_list in H.
  destruct (if truthy (SubmitShoppingList.open submit) then _ else _);
    [discriminate|].
  destruct (first (select_owned_list _ _ session)) as [stored|] eqn:E;
    [|discriminate].
  apply first_filter_Some in E. destruct E as [Hin Hp].
  apply is_list_of_true in Hp. destruct Hp as [Hid Hown].
  destruct (key_split ShoppingList.id (lists session) stored Hpk Hin)
    as (before & after & Hrows & Hb & Ha).
  exists before, stored, after.
  destruct (SubmitShoppingList.open submit) as [b|].
  - injection H as <- <- <-. simpl.
    repeat split; try assumption.
    rewrite Hrows, map_app. simpl. rewrite N.eqb_refl.
    rewrite !update_other_keys; [reflexivity | exact Ha | exact Hb].
  - injection H as <- <- <-. repeat split; assumption.
Qed.

Lemma update_list_writes_one_row_of_the_caller_witness :
  exists before stored after,
    lists Fixtures.session = before ++ stored :: after /\
    lists Fixtures.session_closed
    = before ++ ShoppingList.set_open Fixtures.shopping_list false :: after /\
    items Fixtures.session_closed = items Fixtures.session /\
    ShoppingList.id stored = 2%N /\
    ShoppingList.user_id stored = ShoppingListUser.id Fixtures.test_user /\
    ShoppingList.set_open Fixtures.shopping_list false
    = ShoppingList.set_open stored false.
Proof.
  exact (update_list_writes_one_row_of_the_caller
           (SubmitShoppingList.Build (Some false) None) 2%N
           Fixtures.test_user Fixtures.session Fixtures.session_closed
           HTTP_200_OK (ShoppingList.set_open Fixtures.shopping_list false)
           fixtures_primary_keys eq_refl).
Defined.

(** X10.
    With unique primary keys, a successful [update_item] rewrites one row of
    the item table; that item belongs to the list named in the path, which
    is a list of the caller.  The items before and after it, its siblings
    and the items of other users among them, and the whole list table are
    left as they were. *)
Theorem update_item_writes_one_item_of_the_caller :
  forall (list_id item_id : string) (submit_item : SubmitItem.t)
         (current_user : ShoppingListUser.t) (session session' : Database)
         (code : status) (item : Item.t),
    primary_keys session ->
    update_item list_id item_id submit_item current_user session
    = (Response code item, session') ->
    exists before stored after owner,
      items session = before ++ stored :: after /\
      items session' = before ++ item :: after /\
      lists session' = lists session /\
      item = Item.set_open stored (SubmitItem.open submit_item) /\
      uuid.UUID_of_str item_id = Some (Item.id stored) /\
      uuid.UUID_of_str list_id = Some (Item.list_id stored) /\
      In owner (lists session) /\
      ShoppingList.id owner = Item.list_id stored /\
      ShoppingList.user_id owner = ShoppingListUser.id current_user.
Proof.
  intros list_id item_id submit_item current_user session session' code item
    [_ Hpk] H.
  unfold update_item in H.
  destruct (uuid.UUID_of_str list_id) as [lid|]; [|discriminate].
  destruct (first (select_owned_list _ _ session)) as [owner|] eqn:El;
    [|discriminate].
  destruct (uuid.UUID_of_str item_id) as [iid|]; [|discriminate].
  destruct (first (select_item iid lid session)) as [stored|] eqn:Ei;
    [|discriminate].
  injection H as <- <- <-.
  apply first_filter_Some in El. destruct El as [Hlin Hlp].
  apply is_list_of_true in Hlp. destruct Hlp as [Hlid Hown].
  apply first_filter_Some in Ei. destruct Ei as [Hin Hp].
  unfold is_item_of in Hp. apply andb_prop in Hp.
  destruct Hp as [Hiid Hilid].
  apply N.eqb_eq in Hiid. apply N.eqb_eq in Hilid.
  destruct (key_split Item.id (items session) stored Hpk Hin)
    as (before & after & Hrows & Hb & Ha).
  exists before, stored, after, owner. simpl.
  split; [exact Hrows|].
  split.
  { rewrite Hrows, map_app. simpl. rewrite N.eqb_refl.
    rewrite !update_other_keys; [reflexivity | exact Ha | exact Hb]. }
  split; [reflexivity|]. split; [reflexivity|].
  split; [rewrite Hiid; reflexivity|].
  split; [rewrite Hilid; reflexivity|].
  split; [exact Hlin|].
  split; [rewrite Hilid; exact Hlid | exact Hown].
Qed.

Lemma update_item_writes_one_item_of_the_caller_witness :
  exists before stored after owner,
    items Fixtures.session = before ++ stored :: after /\
    [Item.set_open Fixtures.item false; Fixtures.other_item]
    = before ++ Item.set_open Fixtures.item false :: after /\
    lists Fixtures.session = lists Fixtures.session /\
    Item.set_open Fixtures.item false = Item.set_open stored false /\
    uuid.UUID_of_str Fixtures.path_5 = Some (Item.id stored) /\
    uuid.UUID_of_str Fixtures.path_2 = Some (Item.list_id stored) /\
    In owner (lists Fixtures.session) /\
    ShoppingList.id owner = Item.list_id stored /\
    ShoppingList.user_id owner = ShoppingListUser.id Fixtures.test_user.
Proof.
  exact (update_item_writes_one_item_of_the_caller
           Fixtures.path_2 Fixtures.path_5 (SubmitItem.Build "Milk" false)
           Fixtures.test_user Fixtures.session
           (Build_Database (lists Fixtures.session)
              [Item.set_open Fixtures.item false; Fixtures.other_item])
           HTTP_200_OK (Item.set_open Fixtures.item false)
           fixtures_primary_keys eq_refl).
Defined.

(** X11.
    After a successful [update_item], [get_items] answers any caller and
    any list as it did before, except that the updated item is returned
    with the submitted [open] value: names, order and siblings are as they
    were. *)
Theorem update_item_then_get_items :
  forall (list_id item_id : string) (submit_item : SubmitItem.t)
         (current_user : ShoppingListUser.t) (session session' : Database)
         (code : status) (item : Item.t),
    update_item list_id item_id submit_item current_user session
    = (Response code item, session') ->
    forall (asked : UUID) (reader : ShoppingListUser.t),
      fst (get_items asked reader session')
      = match fst (get_items asked reader session) with
        | Response c rows =>
            Response c
              (map (fun i => if N.eqb (Item.id i) (Item.id item)
                             then Item.set_open i (SubmitItem.open submit_item)
                             else i) rows)
        | other => other
        end.
Proof.
  intros list_id item_id submit_item current_user session session' code item H
    asked reader.
  destruct (update_item_inv list_id item_id submit_item current_user session)
    as [[_ Hno]|(stored & _ & Hr)].
  - exfalso. apply (Hno code item). rewrite H. reflexivity.
  - rewrite Hr in H. injection H as <- <- <-.
    unfold get_items, select_owned_list. simpl.
    destruct (first (filter _ (lists session))) as [l|]; [|reflexivity].
    simpl. f_equal. unfold relationship_items. simpl.
    apply filter_map_commute.
    intros x. destruct (N.eqb (Item.id x) (Item.id stored)); reflexivity.
Qed.

Lemma update_item_then_get_items_witness :
  fst (get_items 2%N Fixtures.test_user
         (Build_Database (lists Fixtures.session)
            [Item.set_open Fixtures.item false; Fixtures.other_item]))
  = Response HTTP_200_OK [Item.set_open Fixtures.item false].
Proof.
  exact (update_item_then_get_items
           Fixtures.path_2 Fixtures.path_5 (SubmitItem.Build "Milk" false)
           Fixtures.test_user Fixtures.session
           (Build_Database (lists Fixtures.session)
              [Item.set_open Fixtures.item false; Fixtures.other_item])
           HTTP_200_OK (Item.set_open Fixtures.item false) eq_refl
           2%N Fixtures.test_user).
Defined.

(** ** Repeated requests *)

Lemma map_update_twice {A : Type} (key : A -> N) (g : A -> A) (k : N)
  (rows : list A) :
  (forall x, key (g x) = key x) -> (forall x, g (g x) = g x) ->
  map (fun x => if N.eqb (key x) k then g x else x)
    (map (fun x => if N.eqb (key x) k then g x else x) rows)
  = map (fun x => if N.eqb (key x) k then g x else x) rows.
Proof.
  intros Hk Hg. rewrite map_map. apply map_ext. intros x.
  destruct (N.eqb (key x) k) eqn:E; [|rewrite E; reflexivity].
  rewrite Hk, E. apply Hg.
Qed.

(** X12.
    [update_item] is idempotent: sent again after itself, a request has the
    outcome it had the first time and leaves the database as the first one
    left it. *)
Theorem update_item_idempotent :
  forall (list_id item_id : string) (submit_item : SubmitItem.t)
         (current_user : ShoppingListUser.t) (session : Database),
    update_item list_id item_id submit_item current_user
      (snd (update_item list_id item_id submit_item current_user session))
    = update_item list_id item_id submit_item current_user session.
Proof.
  intros list_id item_id submit_item current_user session.
  unfold update_item.
  destruct (uuid.UUID_of_str list_id) as [lid|]; [|reflexivity].
  destruct (first (select_owned_list lid _ session)) as [l|] eqn:Eo;
    [|simpl; rewrite Eo; reflexivity].
  destruct (uuid.UUID_of_str item_id) as [iid|] eqn:Ei;
    [|simpl; rewrite Eo; reflexivity].
  destruct (first (select_item iid lid session)) as [stored|] eqn:Es;
    [|simpl; rewrite Eo, Es; reflexivity].
  simpl.
  change (select_owned_list lid (ShoppingListUser.id current_user)
            (update_item_open (Item.id stored) (SubmitItem.open submit_item)
               session))
    with (select_owned_list lid (ShoppingListUser.id current_user) session).
  rewrite Eo.
  pose proof Es as Hs. apply first_filter_Some in Hs. destruct Hs as [_ Hp].
  assert (Hid : Item.id stored = iid).
  { unfold is_item_of in Hp. apply andb_prop in Hp. apply N.eqb_eq.
    exact (proj1 Hp). }
  unfold select_item in *. simpl.
  rewrite filter_map_commute.
  2:{ intros x. destruct (N.eqb (Item.id x) (Item.id stored)); reflexivity. }
  rewrite first_map, Es. simpl. rewrite N.eqb_refl. simpl.
  unfold update_item_open. simpl.
  rewrite map_update_twice; [reflexivity | reflexivity | reflexivity].
Qed.

(** X13.
    [update_list] that does not ask for [open = true] is idempotent as well;
    one that asks for [open = true] is not: after it succeeded, the same
    request is refused with 400 and changes nothing. *)
Theorem update_list_repeated :
  forall (submit : SubmitShoppingList.t) (list_id : UUID)
         (current_user : ShoppingListUser.t) (session : Database),
    let result := update_list submit list_id current_user session in
    (truthy (SubmitShoppingList.open submit) = false ->
     update_list submit list_id current_user (snd result) = result) /\
    (truthy (SubmitShoppingList.open submit) = true ->
     forall code l,
       fst result = Response code l ->
       update_list submit list_id current_user (snd result)
       = (HTTPException HTTP_400_BAD_REQUEST detail_more_than_one,
          snd result)).
Proof.
  intros submit list_id current_user session result. subst result.
  split.
  - intros Hfalse. unfold update_list. rewrite Hfalse.
    destruct (first (select_owned_list _ _ session)) as [stored|] eqn:Eo;
      [|simpl; rewrite Eo; reflexivity].
    destruct (SubmitShoppingList.open submit) as [b|] eqn:Hb;
      [|simpl; rewrite Eo; reflexivity].
    simpl. unfold select_owned_list in *. simpl.
    rewrite filter_map_commute.
    2:{ intros x. destruct (N.eqb (ShoppingList.id x) (ShoppingList.id stored));
          reflexivity. }
    rewrite first_map, Eo. simpl. rewrite N.eqb_refl. simpl.
    unfold update_list_open. simpl.
    rewrite map_update_twice; [reflexivity | reflexivity | reflexivity].
  - intros Htrue code l H. unfold update_list in *.
    destruct (SubmitShoppingList.open submit) as [[|]|];
      simpl in Htrue; try discriminate.
    simpl in H. simpl.
    destruct (first (select_open_lists _ session)); [discriminate|].
    destruct (first (select_owned_list _ _ session)) as [stored|] eqn:Eo;
      [|discriminate].
    apply first_filter_Some in Eo. destruct Eo as [Hin Hp].
    apply is_list_of_true in Hp. destruct Hp as [_ Howner].
    simpl.
    destruct (first_filter_exists
                (is_open_list_of (ShoppingListUser.id current_user))
                (lists (update_list_open (ShoppingList.id stored) true session))
                (ShoppingList.set_open stored true)) as [x Hx].
    + apply (In_update_by_key ShoppingList.id
               (fun r => ShoppingList.set_open r true)).
      exact Hin.
    + unfold is_open_list_of. simpl. rewrite Howner, N.eqb_refl.
      reflexivity.
    + unfold select_open_lists. rewrite Hx. reflexivity.
Qed.

Lemma update_list_repeated_witness :
  update_list (SubmitShoppingList.Build (Some false) None) 2%N
    Fixtures.test_user Fixtures.session_closed
  = update_list (SubmitShoppingList.Build (Some false) None) 2%N
      Fixtures.test_user Fixtures.session /\
  update_list (SubmitShoppingList.Build (Some true) None) 2%N
    Fixtures.test_user Fixtures.session
  = (HTTPException HTTP_400_BAD_REQUEST detail_more_than_one,
     Fixtures.session).
Proof.
  split.
  - exact (proj1 (update_list_repeated
                    (SubmitShoppingList.Build (Some false) None) 2%N
                    Fixtures.test_user Fixtures.session) eq_refl).
  - exact (proj2 (update_list_repeated
                    (SubmitShoppingList.Build (Some true) None) 2%N
                    Fixtures.test_user Fixtures.session_closed) eq_refl
             HTTP_200_OK Fixtures.shopping_list eq_refl).
Defined.

(** ** Closing the open list *)

Lemma set_open_back (l : ShoppingList.t) :
  ShoppingList.open l = true ->
  ShoppingList.set_open (ShoppingList.set_open l false) true = l.
Proof.
  destruct l as [i u o c d]. simpl. intros ->. reflexivity.
Qed.

Lemma length_zero_nil {A : Type} (rows : list A) :
  List.length rows = 0 -> rows = [].
Proof. destruct rows; [reflexivity | discriminate]. Qed.

(** X14.
    In a database with unique primary keys that satisfies INV-1, the owner
    of the open list can always close it; after that they have no open list
    and [create_list] no longer answers 403; and asking for [open = true] on
    the same list again is accepted and restores the database exactly as it
    was before the list was closed. *)
Theorem close_then_reopen :
  forall (session : Database) (l : ShoppingList.t)
         (current_user : ShoppingListUser.t)
         (submitted submitted' : option (list SubmitItem.t))
         (defaults : FieldDefaults) (uuid4 : nat -> UUID)
         (submit : SubmitShoppingList.t),
    primary_keys session -> INV_1 session ->
    In l (lists session) ->
    ShoppingList.user_id l = ShoppingListUser.id current_user ->
    ShoppingList.open l = true ->
    let closed :=
      update_list_open (ShoppingList.id l) false session in
    update_list (SubmitShoppingList.Build (Some false) submitted)
      (ShoppingList.id l) current_user session
    = (Response HTTP_200_OK (ShoppingList.set_open l false), closed) /\
    select_open_lists (ShoppingListUser.id current_user) closed = [] /\
    status_of (fst (create_list defaults uuid4 submit current_user closed))
    <> Some HTTP_403_FORBIDDEN /\
    update_list (SubmitShoppingList.Build (Some true) submitted')
      (ShoppingList.id l) current_user closed
    = (Response HTTP_200_OK l, session).
Proof.
  intros session l current_user submitted submitted' defaults uuid4 submit
    [Hpk _] Hinv Hin Hown Hopen closed.
  destruct (key_split ShoppingList.id (lists session) l Hpk Hin)
    as (before & after & Hrows & Hb & Ha).
  set (user := ShoppingListUser.id current_user) in *.
  assert (Howned : forall b,
             is_list_of (ShoppingList.id l) user (ShoppingList.set_open l b)
             = true).
  { intros b. unfold is_list_of. simpl. rewrite Hown, !N.eqb_refl.
    reflexivity. }
  assert (Hnot : forall part,
             (forall x, In x part -> ShoppingList.id x <> ShoppingList.id l) ->
             filter (is_list_of (ShoppingList.id l) user) part = []).
  { intros part Hp. apply forall_filter_nil. intros r Hr.
    unfold is_list_of. apply andb_false_iff. left. apply N.eqb_neq.
    apply Hp. exact Hr. }
  assert (Hclosed : lists closed
                    = before ++ ShoppingList.set_open l false :: after).
  { unfold closed. simpl. rewrite Hrows, map_app. simpl.
    rewrite N.eqb_refl, !update_other_keys; [reflexivity | exact Ha | exact Hb]. }
  (* the open lists of the caller *)
  pose proof (Hinv user) as Hone. unfold select_open_lists in Hone.
  rewrite Hrows, count_open_split in Hone.
  assert (Hl : is_open_list_of user l = true).
  { unfold is_open_list_of. rewrite Hopen, Hown. unfold user.
    rewrite N.eqb_refl. reflexivity. }
  rewrite Hl in Hone.
  assert (Hfb : filter (is_open_list_of user) before = [])
    by (apply length_zero_nil; lia).
  assert (Hfa : filter (is_open_list_of user) after = [])
    by (apply length_zero_nil; lia).
  assert (Hnone : select_open_lists user closed = []).
  { unfold select_open_lists. rewrite Hclosed, filter_app. simpl.
    rewrite Hfb, Hfa. reflexivity. }
  split; [|split; [exact Hnone|split]].
  - unfold update_list. simpl. fold user.
    unfold select_owned_list. rewrite Hrows, filter_app. simpl.
    rewrite (Hnot before Hb), (Hnot after Ha).
    replace (is_list_of (ShoppingList.id l) user l) with true.
    2:{ symmetry. unfold is_list_of. rewrite Hown. unfold user.
        rewrite !N.eqb_refl. reflexivity. }
    reflexivity.
  - unfold create_list. fold user. rewrite Hnone. simpl.
    destruct (SubmitShoppingList.items submit) as [its|]; [|simpl; discriminate].
    destruct (Nat.eqb (List.length its) 0); [simpl; discriminate|].
    destruct (insert_list _ closed); [|simpl; discriminate].
    destruct (insert_items _ _); simpl; discriminate.
  - unfold update_list. simpl. fold user. rewrite Hnone. simpl.
    unfold select_owned_list. rewrite Hclosed, filter_app. simpl.
    rewrite (Hnot before Hb), (Hnot after Ha), (Howned false). simpl.
    rewrite set_open_back by exact Hopen.
    f_equal. unfold update_list_open. rewrite Hclosed, map_app. simpl.
    rewrite N.eqb_refl, !update_other_keys; [|exact Ha | exact Hb].
    rewrite set_open_back by exact Hopen.
    rewrite <- Hrows. unfold closed. simpl. destruct session; reflexivity.
Qed.

Lemma close_then_reopen_witness :
  update_list (SubmitShoppingList.Build (Some false) None) 2%N
    Fixtures.test_user Fixtures.session
  = (Response HTTP_200_OK (ShoppingList.set_open Fixtures.shopping_list false),
     update_list_open 2%N false Fixtures.session) /\
  update_list (SubmitShoppingList.Build (Some true) None) 2%N
    Fixtures.test_user (update_list_open 2%N false Fixtures.session)
  = (Response HTTP_200_OK Fixtures.shopping_list, Fixtures.session).
Proof.
  pose proof (close_then_reopen Fixtures.session Fixtures.shopping_list
                Fixtures.test_user None None Fixtures.defaults Fixtures.uuid4
                (SubmitShoppingList.Build (Some true) None)
                fixtures_primary_keys fixtures_INV_1
                (or_introl eq_refl) eq_refl eq_refl) as H.
  cbv zeta in H.
  exact (conj (proj1 H) (proj2 (proj2 (proj2 H)))).
Defined.

(** ** Authentication *)

Lemma select_users_name (username : string) (users : list ShoppingListUser.t)
  (user : ShoppingListUser.t) :
  first (select_users username users) = Some user ->
  In user users /\ ShoppingListUser.name user = username.
Proof.
  intros H. apply first_filter_Some in H. destruct H as [Hin Hp].
  split; [exact Hin|]. apply String.eqb_eq. exact Hp.
Qed.

(** X15.
    [authenticate_user] returns a user only when the stored row it returns
    is the first one under the given name and the given password verifies
    against the hash stored in that row. *)
Theorem authenticate_user_sound :
  forall (lib : Library) (users : list ShoppingListUser.t)
         (username password : string) (user : ShoppingListUser.t),
    authenticate_user lib users username password = Some user ->
    In user users /\
    ShoppingListUser.name user = username /\
    first (select_users username users) = Some user /\
    pwd_context_verify lib password (ShoppingListUser.password user) = true.
Proof.
  intros lib users username password user H. unfold authenticate_user in H.
  destruct (first (select_users username users)) as [u|] eqn:E;
    [|discriminate].
  unfold verify_password in H.
  destruct (pwd_context_verify lib password (ShoppingListUser.password u))
    eqn:Hv; simpl in H; [|discriminate].
  injection H as <-.
  destruct (select_users_name _ _ _ E) as [Hin Hname].
  repeat split; assumption.
Qed.

Lemma authenticate_user_sound_witness :
  authenticate_user AuthFixtures.library AuthFixtures.users "test" "test"
  = Some AuthFixtures.test_user /\
  In AuthFixtures.test_user AuthFixtures.users.
Proof.
  split; [reflexivity|].
  exact (proj1 (authenticate_user_sound AuthFixtures.library
                  AuthFixtures.users "test" "test" AuthFixtures.test_user
                  eq_refl)).
Defined.





Lemma timedelta_minutes_zero (m : Z) :
  Z.eqb (timedelta_minutes m) 0 = Z.eqb m 0.
Proof.
  unfold timedelta_minutes.
  destruct (Z.eqb_spec m 0) as [->|Hm]; [reflexivity|].
  apply Z.eqb_neq. lia.
Qed.

(** The expiry that [create_access_token] writes: the given duration after
    [now] when there is one and it is not zero, and 15 minutes after [now]
    otherwise; a zero duration counts as none.  An "exp" already in the data
    is replaced and the subject is kept. *)
Lemma create_access_token_expiry :
  forall (lib : Library) (now : datetime) (data : Payload.t)
         (expires_delta : option timedelta),
    create_access_token lib now data expires_delta
    = jwt_encode lib
        (Payload.Build (Payload.sub data)
           (Some (now + match expires_delta with
                        | Some d => if Z.eqb d 0 then timedelta_minutes 15 else d
                        | None => timedelta_minutes 15
                        end)%Z)).
Proof.
  intros lib now data expires_delta.
  unfold create_access_token, to_encode, Payload.update_exp, truthy_delta.
  destruct expires_delta as [d|]; [|reflexivity].
  destruct (Z.eqb d 0); reflexivity.
Qed.

(** X18.
    A token that [get_access_token] issues is of type "bearer", carries the
    name of the authenticated user as its subject, and expires
    [ACCESS_TOKEN_EXPIRE_MINUTES] minutes after the request, except that a
    setting of 0 gives 15 minutes; a negative setting gives a token that has
    expired already. *)
Theorem get_access_token_issues :
  forall (lib : Library) (minutes : Z) (now : datetime)
         (users : list ShoppingListUser.t) (username password : string)
         (token : Token.t),
    get_access_token lib minutes now users username password
    = Authorized token ->
    Token.token_type token = "bearer" /\
    exists expire,
      Token.access_token token
      = jwt_encode lib (Payload.Build (Some username) (Some expire)) /\
      expire = (now + (if Z.eqb minutes 0 then 15 else minutes) * 60000000)%Z /\
      (minutes < 0 -> expire < now)%Z.
Proof.
  intros lib minutes now users username password token H.
  unfold get_access_token in H.
  destruct (authenticate_user lib users username password) as [user|] eqn:Ha;
    [|discriminate].
  injection H as <-. simpl. split; [reflexivity|].
  unfold authenticate_user in Ha.
  destruct (first (select_users username users)) as [u|] eqn:E;
    [|discriminate].
  destruct (negb _); [discriminate|]. injection Ha as <-.
  destruct (select_users_name _ _ _ E) as [_ Hname].
  eexists. split; [|split; [reflexivity|]].
  - unfold create_access_token, to_encode, Payload.update_exp, truthy_delta.
    simpl. rewrite Hname, timedelta_minutes_zero.
    unfold timedelta_minutes.
    destruct (Z.eqb minutes 0); reflexivity.
  - intros Hneg. destruct (Z.eqb_spec minutes 0); lia.
Qed.

Lemma get_access_token_issues_witness :
  get_access_token AuthFixtures.library 0%Z 1000%Z AuthFixtures.users
    "test" "test"
  = Authorized (Token.Build "jwt:test" "bearer") /\
  exists expire,
    "jwt:test"
    = jwt_encode AuthFixtures.library
        (Payload.Build (Some "test") (Some expire)) /\
    expire = (1000 + 15 * 60000000)%Z /\
    (0 < 0 -> expire < 1000)%Z.
Proof.
  split; [reflexivity|].
  exact (proj2 (get_access_token_issues AuthFixtures.library 0%Z 1000%Z
                  AuthFixtures.users "test" "test"
                  (Token.Build "jwt:test" "bearer") eq_refl)).
Defined.

(** X19.
    [get_current_user] authorizes a user only when the token decodes, its
    subject is a name in the user table, and the user is the first row
    under that name; in every other case the answer is the one 401 "Could
    not validate credentials" with the Bearer challenge. *)
Theorem get_current_user_sound :
  forall (lib : Library) (users : list ShoppingListUser.t) (token : string),
    get_current_user lib users token = credentials_exception \/
    exists user payload,
      get_current_user lib users token = Authorized user /\
      jwt_decode lib token = Some payload /\
      Payload.sub payload = Some (ShoppingListUser.name user) /\
      In user users /\
      first (select_users (ShoppingListUser.name user) users) = Some user.
Proof.
  intros lib users token. unfold get_current_user.
  destruct (jwt_decode lib token) as [payload|]; [|left; reflexivity].
  destruct (Payload.sub payload) as [username|] eqn:Hsub; [|left; reflexivity].
  destruct (first (select_users username users)) as [user|] eqn:E;
    [|left; reflexivity].
  right. exists user, payload.
  destruct (select_users_name _ _ _ E) as [Hin Hname].
  rewrite Hname. repeat split; try assumption; reflexivity.
Qed.



